(** * Loan approval predictor: a shallow embedding of [app.py]

    [app.py] is a Streamlit script.  Each run of the script loads the
    pickled classifier, draws the form, draws the advisory warnings and,
    when the Predict button was pressed, assembles a one-row pandas frame,
    aligns it with the classifier's [feature_names_in_] and shows the
    classifier's answer.

    The embedding follows the script line by line.  A run is a value of a
    small writer-and-exception monad [Script]: the writer part is the list
    of things the run did that can be seen from outside (Streamlit elements
    and calls of the classifier), the exception part is a Python exception
    that left the statement.  Python [int] is [Z], Python [float] is the
    kernel's binary64 [float], [str] is [string], a one-row [DataFrame] is
    the ordered list of its labelled cells. *)

From Stdlib Require Import ZArith List String Ascii Bool Floats Lia.
From Stdlib Require Import DecimalString.
Import ListNotations.

(** A decimal float literal denotes the nearest binary64 value, in Python
    as here. *)
Set Warnings "-inexact-float".

Local Open Scope string_scope.
Local Open Scope Z_scope.

(* ================================================================== *)
(** * Python values, exceptions and the built-ins the script calls *)
(* ================================================================== *)

Module Py.

(** The exception classes that can show up while the script runs.  The
    first seven derive from [Exception]; [KeyboardInterrupt] and
    [SystemExit] derive from [BaseException] only.  [OtherException]
    stands for any further subclass of [Exception] (the classifier is
    foreign code and raises what it likes), [OtherBaseException] for any
    further class outside [Exception]. *)
Inductive exn_class : Type :=
| FileNotFoundError
| AttributeError
| KeyError
| IndexError
| ZeroDivisionError
| OverflowError
| OtherException (name : string)
| KeyboardInterrupt
| SystemExit
| OtherBaseException (name : string).

(** An exception object: its class and [str(e)]. *)
Record exn : Type := mk_exn { exn_class_of : exn_class; exn_str : string }.

(** [isinstance(e, Exception)] *)
Definition isinstance_Exception (e : exn) : bool :=
  match exn_class_of e with
  | KeyboardInterrupt | SystemExit | OtherBaseException _ => false
  | _ => true
  end.

(** What evaluating an expression or running a statement gives. *)
Inductive outcome (A : Type) : Type :=
| Returned (a : A)
| Raised (e : exn).
Arguments Returned {A} a.
Arguments Raised {A} e.

(** The built-in [max(a, b)] on two ints: the first argument is kept
    unless the second is strictly greater. *)
Definition max (a b : Z) : Z := if b >? a then b else a.

(** ** True division of two ints

    [a / b] on ints raises [ZeroDivisionError] when [b] is zero, gives
    the correctly rounded binary64 quotient otherwise, and raises
    [OverflowError] when that quotient is too large for a float. *)

Definition float_of_int_exact (z : Z) : spec_float :=
  match z with
  | Z0 => S754_zero false
  | Zpos p => S754_finite false p 0
  | Zneg p => S754_finite true p 0
  end.

Definition truediv (a b : Z) : outcome float :=
  if b =? 0 then Raised (mk_exn ZeroDivisionError "division by zero")
  else
    match SFdiv FloatOps.prec FloatOps.emax
                (float_of_int_exact a) (float_of_int_exact b) with
    | S754_infinity _ =>
        Raised (mk_exn OverflowError
                       "integer division result too large for a float")
    | q => Returned (SF2Prim q)
    end.

(** [float(z)] for the small int literals of the script. *)
Definition float_of_int (z : Z) : float :=
  SF2Prim (binary_normalize FloatOps.prec FloatOps.emax z 0 false).

(** ** [format(x, ".2f")]

    The decimal expansion of the exact binary value of [x], rounded to
    two places, ties to even. *)

Definition string_of_N (n : N) : string :=
  NilZero.string_of_uint (N.to_uint n).

Definition digit_char (d : N) : string :=
  String (ascii_of_N (48 + d)) EmptyString.

(** [m * 2^e * 100], rounded to the nearest integer, ties to even. *)
Definition hundredths (m : positive) (e : Z) : N :=
  match e with
  | Zneg p =>
      let num := (Npos m * 100)%N in
      let den := N.shiftl 1 (Npos p) in
      let q := (num / den)%N in
      let r := (num mod den)%N in
      match (2 * r ?= den)%N with
      | Lt => q
      | Gt => (q + 1)%N
      | Eq => if N.even q then q else (q + 1)%N
      end
  | _ => (N.shiftl (Npos m) (Z.to_N e) * 100)%N
  end.

Definition format_2f (x : float) : string :=
  match Prim2SF x with
  | S754_nan => "nan"
  | S754_infinity false => "inf"
  | S754_infinity true => "-inf"
  | S754_zero s => (if s then "-" else "") ++ "0.00"
  | S754_finite s m e =>
      let n := hundredths m e in
      (if s then "-" else "")
        ++ string_of_N (n / 100)
        ++ "." ++ digit_char ((n mod 100) / 10) ++ digit_char (n mod 10)
  end.

(** ** [os.path.join] (POSIX) *)

Fixpoint endswith_sep (s : string) : bool :=
  match s with
  | EmptyString => false
  | String c EmptyString => Ascii.eqb c "/"
  | String _ rest => endswith_sep rest
  end.

Definition startswith_sep (s : string) : bool :=
  match s with
  | String c _ => Ascii.eqb c "/"
  | EmptyString => false
  end.

Definition join2 (path b : string) : string :=
  if startswith_sep b then b
  else if (path =? "")%string || endswith_sep path then path ++ b
  else path ++ "/" ++ b.

Definition os_path_join (a : string) (p : list string) : string :=
  fold_left join2 p a.

End Py.
Export Py.

(* ================================================================== *)
(** * numpy scalars *)
(* ================================================================== *)

Module Numpy.

(** An entry of the array [predict_proba] returns is a numpy scalar, and
    line 121 multiplies it by the Python int 100.  A float64 entry, and a
    float32 entry under NumPy 1 (which takes the int for an int64 and
    promotes to float64), give the binary64 product of the two values; a
    float32 entry under NumPy 2 (where a Python int takes the type of the
    other operand) gives the binary32 product, as the arrays of XGBoost
    do.  Either way the result is held here as the binary64 float of the
    same value, which is also what formatting it converts it to. *)
Inductive product_arith : Type := binary64_product | binary32_product.

Definition times_int (a : product_arith) (x : float) (k : Z) : float :=
  match a with
  | binary64_product => PrimFloat.mul x (float_of_int k)
  | binary32_product =>
      SF2Prim (SFmul 24 128 (Prim2SF x) (binary_normalize 24 128 k 0 false))
  end.

End Numpy.
Export Numpy.

(* ================================================================== *)
(** * One-row pandas frames *)
(* ================================================================== *)

Module Pandas.

(** A cell of the frame.  [Bool] is there for [get_dummies], whose
    indicator columns are [bool] in pandas 2 and [uint8] before. *)
Inductive cell : Type :=
| Int (z : Z)
| Float (x : float)
| Bool (b : bool)
| Str (s : string).

(** A frame with the single row 0: its columns from left to right. *)
Definition DataFrame : Type := list (string * cell).

(** [df.columns] *)
Definition columns (df : DataFrame) : list string := map fst df.

(** [col in df.columns] *)
Definition contains (df : DataFrame) (col : string) : bool :=
  existsb (String.eqb col) (columns df).

(** [df[col] = v]: every column labelled [col] is overwritten; when there
    is none, a new column is added on the right. *)
Definition setitem (df : DataFrame) (col : string) (v : cell) : DataFrame :=
  if contains df col
  then map (fun c => if (fst c =? col)%string then (col, v) else c) df
  else (df ++ [(col, v)])%list.

(** The columns of [df] labelled [col], in frame order. *)
Definition labelled (df : DataFrame) (col : string) : DataFrame :=
  filter (fun c => (fst c =? col)%string) df.

(** The value of the first column labelled [col]. *)
Definition cell_at (df : DataFrame) (col : string) : option cell :=
  match labelled df col with
  | [] => None
  | c :: _ => Some (snd c)
  end.

Definition repr_str (s : string) : string := "'" ++ s ++ "'".

Definition repr_list (l : list string) : string :=
  "[" ++ String.concat ", " (map repr_str l) ++ "]".

(** [df[keys]] for a list of labels: the columns of [df] picked in the
    order of [keys]; a label that [df] does not have is a [KeyError]
    (pandas lists the labels it did not find). *)
Definition getitem (df : DataFrame) (keys : list string) : outcome DataFrame :=
  match filter (fun k => negb (contains df k)) keys with
  | [] => Returned (flat_map (labelled df) keys)
  | missing =>
      Raised (mk_exn KeyError (repr_str (repr_list missing ++ " not in index")))
  end.

(** [pd.concat([a, b], axis=1)] of two frames over the same row. *)
Definition concat_columns (a b : DataFrame) : DataFrame := (a ++ b)%list.

(** The value [get_dummies] writes for "this row has the level". *)
Inductive dummy_dtype : Type := dummy_uint8 | dummy_bool.

Definition indicator (dt : dummy_dtype) : cell :=
  match dt with
  | dummy_uint8 => Int 1
  | dummy_bool => Bool true
  end.

Definition is_str (c : cell) : bool :=
  match c with Str _ => true | _ => false end.

Definition dummy_of (dt : dummy_dtype) (c : string * cell) : DataFrame :=
  match snd c with
  | Str v => [(fst c ++ "_" ++ v, indicator dt)]
  | _ => []
  end.

(** [pd.get_dummies(df)] on a one-row frame: a string column [c] whose
    row holds [v] becomes the single indicator column [c_v]; the other
    columns are kept and come first. *)
Definition get_dummies (dt : dummy_dtype) (df : DataFrame) : DataFrame :=
  (filter (fun c => negb (is_str (snd c))) df ++ flat_map (dummy_of dt) df)%list.

(** Python's [==] between a cell and an int: [True == 1], [1.0 == 1]. *)
Definition eq_int (c : cell) (z : Z) : bool :=
  match c with
  | Int n => n =? z
  | Bool b => (if b then 1 else 0) =? z
  | Float x => PrimFloat.eqb x (float_of_int z)
  | Str _ => false
  end.

End Pandas.
Export Pandas.

(* ================================================================== *)
(** * The classifier and what a run can be seen to do *)
(* ================================================================== *)

(** The unpickled object.  [feature_names_in_] and [predict_proba] are
    attributes an object may or may not have.  Reading a
    [feature_names_in_] that is not there raises an [AttributeError]:
    with Python's own wording, which names the class, for a class that
    has no such attribute at all, and with the wording of the class for
    one that answers the attribute by a property and raises from it (as
    [XGBClassifier] does when its booster has no feature names);
    [feature_names_in_raises] is that wording, if any.  [proba_arith]
    says how an entry of [predict_proba]'s answer multiplies with an
    int. *)
Record Model : Type := {
  class_name : string;
  feature_names_in_ : option (list string);
  feature_names_in_raises : option string;
  predict : DataFrame -> outcome (list Z);
  predict_proba : option (DataFrame -> outcome (list (list float)));
  proba_arith : product_arith
}.

Module Streamlit.

(** The declarations of the input widgets, as written in the script. *)
Record int_input : Type := {
  int_label : string;
  int_min_value : option Z;
  int_max_value : option Z;
  int_step : option Z;
  int_value : Z
}.

Record float_input : Type := {
  float_label : string;
  float_min_value : option float;
  float_max_value : option float;
  float_step : option float;
  float_value : float
}.

Record select_input : Type := {
  select_label : string;
  select_options : list string
}.

(** What the front end can hand back for a widget: a number within the
    declared bounds, one of the listed options. *)
Definition int_admits (w : int_input) (v : Z) : bool :=
  match int_min_value w with Some lo => lo <=? v | None => true end
  && match int_max_value w with Some hi => v <=? hi | None => true end.

Definition float_admits (w : float_input) (v : float) : bool :=
  match float_min_value w with Some lo => PrimFloat.leb lo v | None => true end
  && match float_max_value w with Some hi => PrimFloat.leb v hi | None => true end.

Definition select_admits (w : select_input) (v : string) : bool :=
  existsb (String.eqb v) (select_options w).

(** Everything a run does that is visible from outside, in order. *)
Inductive event : Type :=
| set_page_config (page_title page_icon layout : string)
| title (text : string)
| write (text : string)
| columns_layout (n : nat)
| subheader (text : string)
| number_input (w : int_input)
| number_input_float (w : float_input)
| selectbox (w : select_input)
| button (label : string)
| warning (text : string)
| success (text : string)
| error (text : string)
| info (text : string)
| called_predict (X : DataFrame)
| called_predict_proba (X : DataFrame).

End Streamlit.
Export Streamlit.

(* ================================================================== *)
(** * The monad of script runs *)
(* ================================================================== *)

Module Run.

(** What a statement did, and how it ended. *)
Definition Script (A : Type) : Type := list event * outcome A.

Definition ret {A} (a : A) : Script A := ([], Returned a).
Definition raise {A} (e : exn) : Script A := ([], Raised e).
Definition emit (ev : event) : Script unit := ([ev], Returned tt).
Definition lift {A} (r : outcome A) : Script A := ([], r).

Definition bind {A B} (m : Script A) (k : A -> Script B) : Script B :=
  match snd m with
  | Returned a => ((fst m ++ fst (k a))%list, snd (k a))
  | Raised e => (fst m, Raised e)
  end.

(** [try: body  except Exception as e: handler e] *)
Definition try_except_Exception (body : Script unit)
           (handler : exn -> Script unit) : Script unit :=
  match snd body with
  | Returned _ => body
  | Raised e =>
      if isinstance_Exception e
      then ((fst body ++ fst (handler e))%list, snd (handler e))
      else body
  end.

Definition trace {A} (m : Script A) : list event := fst m.
Definition result {A} (m : Script A) : outcome A := snd m.

End Run.
Export Run.

Notation "x <- m ;; k" := (bind m (fun x => k))
  (at level 61, m at next level, right associativity).
Notation "m ;; k" := (bind m (fun _ => k))
  (at level 61, right associativity).

(* ================================================================== *)
(** * The script *)
(* ================================================================== *)

Module App.

(** The values the eleven widgets hand to the script in one run. *)
Record Inputs : Type := {
  person_age : Z;
  person_income : Z;
  person_emp_length : Z;
  person_home_ownership : string;
  cb_person_default_on_file : string;
  cb_person_cred_hist_length : Z;
  loan_intent : string;
  loan_grade : string;
  loan_amnt : Z;
  loan_int_rate : float;
  loan_percent_income : float
}.

(** What a run of the script finds around it. *)
Record Env : Type := {
  script_dir : string;                    (* os.path.dirname(__file__) *)
  path_exists : string -> bool;           (* os.path.exists *)
  joblib_load : string -> outcome Model;  (* joblib.load *)
  dummies : dummy_dtype;                  (* the installed pandas *)
  inputs : Inputs;                        (* the state of the widgets *)
  predict_pressed : bool                  (* st.button("Predict") *)
}.

(** ** Load Model (lines 9-14) *)

Definition MODEL_PATH (env : Env) : string :=
  os_path_join (script_dir env) ["Model"; "best_xgb.pkl"].

Definition model_not_found (path : string) : exn :=
  mk_exn FileNotFoundError ("❌ Model file not found at: " ++ path).

Definition load_model (env : Env) : Script Model :=
  if negb (path_exists env (MODEL_PATH env))
  then raise (model_not_found (MODEL_PATH env))
  else lift (joblib_load env (MODEL_PATH env)).

(** ** Streamlit UI (lines 19-43) *)

Definition page_header : Script unit :=
  emit (set_page_config "💳 Loan Approval Predictor" "💳" "wide") ;;
  emit (title "💳 Loan Approval Prediction") ;;
  emit (write "Fill in the details below to predict whether the loan will be approved.").

Definition w_person_age : int_input :=
  {| int_label := "Person Age"; int_min_value := Some 18;
     int_max_value := Some 75; int_step := None;
     int_value := 30 |}.
Definition w_person_income : int_input :=
  {| int_label := "Person Income"; int_min_value := Some 10000;
     int_max_value := None; int_step := Some 100;
     int_value := 50000 |}.
Definition w_person_emp_length : int_input :=
  {| int_label := "Employment Length (years)"; int_min_value := Some 0;
     int_max_value := Some 50; int_step := None;
     int_value := 5 |}.
Definition w_person_home_ownership : select_input :=
  {| select_label := "Home Ownership";
     select_options := ["OWN"; "RENT"; "MORTGAGE"; "OTHER"] |}.
Definition w_cb_person_default_on_file : select_input :=
  {| select_label := "Default on File"; select_options := ["Y"; "N"] |}.
Definition w_cb_person_cred_hist_length : int_input :=
  {| int_label := "Credit History Length (years)"; int_min_value := Some 0;
     int_max_value := None; int_step := None;
     int_value := 10 |}.
Definition w_loan_intent : select_input :=
  {| select_label := "Loan Intent";
     select_options := ["EDUCATION"; "MEDICAL"; "VENTURE"; "PERSONAL";
                        "HOMEIMPROVEMENT"; "DEBTCONSOLIDATION"] |}.
Definition w_loan_grade : select_input :=
  {| select_label := "Loan Grade";
     select_options := ["A"; "B"; "C"; "D"; "E"; "F"; "G"] |}.
Definition w_loan_amnt : int_input :=
  {| int_label := "Loan Amount"; int_min_value := Some 5000;
     int_max_value := None; int_step := Some 1000;
     int_value := 10000 |}.
Definition w_loan_int_rate : float_input :=
  {| float_label := "Loan Interest Rate (%)"; float_min_value := Some 5%float;
     float_max_value := Some 25%float; float_step := None;
     float_value := 12.5%float |}.
Definition w_loan_percent_income : float_input :=
  {| float_label := "Loan Percent Income"; float_min_value := Some 0%float;
     float_max_value := None; float_step := Some 0.01%float;
     float_value := 0.2%float |}.

(** The form: two columns of widgets.  The script reads each widget's
    current value. *)
Definition collector (env : Env) : Script Inputs :=
  emit (columns_layout 2) ;;
  emit (subheader "👤 Personal Info") ;;
  emit (number_input w_person_age) ;;
  emit (number_input w_person_income) ;;
  emit (number_input w_person_emp_length) ;;
  emit (selectbox w_person_home_ownership) ;;
  emit (selectbox w_cb_person_default_on_file) ;;
  emit (number_input w_cb_person_cred_hist_length) ;;
  emit (subheader "💰 Loan Info") ;;
  emit (selectbox w_loan_intent) ;;
  emit (selectbox w_loan_grade) ;;
  emit (number_input w_loan_amnt) ;;
  emit (number_input_float w_loan_int_rate) ;;
  emit (number_input_float w_loan_percent_income) ;;
  ret (inputs env).

(** The values the front end can put into the widgets: each within the
    bounds, or among the options, its widget declares. *)
Definition collectable (i : Inputs) : bool :=
  int_admits w_person_age (person_age i)
  && int_admits w_person_income (person_income i)
  && int_admits w_person_emp_length (person_emp_length i)
  && select_admits w_person_home_ownership (person_home_ownership i)
  && select_admits w_cb_person_default_on_file (cb_person_default_on_file i)
  && int_admits w_cb_person_cred_hist_length (cb_person_cred_hist_length i)
  && select_admits w_loan_intent (loan_intent i)
  && select_admits w_loan_grade (loan_grade i)
  && int_admits w_loan_amnt (loan_amnt i)
  && float_admits w_loan_int_rate (loan_int_rate i)
  && float_admits w_loan_percent_income (loan_percent_income i).

(** ** Warnings for unrealistic values (lines 46-59) *)

Definition age_warning : string := "⚠ Age should be between 20 and 75 years.".
Definition income_warning : string := "⚠ Income should be atleast 10000.".
Definition emp_length_warning : string := "⚠ Employment length should be between 0 and 50 years.".
Definition loan_amnt_warning : string := "⚠ Loan amount should be atleast 5000.".
Definition int_rate_warning : string := "⚠ Interest rate should be between 5% and 25%.".

Definition age_in_range (i : Inputs) : bool :=
  (20 <=? person_age i) && (person_age i <=? 75).
Definition income_in_range (i : Inputs) : bool :=
  person_income i >=? 10000.
Definition emp_length_in_range (i : Inputs) : bool :=
  (0 <=? person_emp_length i) && (person_emp_length i <=? 50).
Definition loan_amnt_in_range (i : Inputs) : bool :=
  loan_amnt i >=? 5000.
Definition int_rate_in_range (i : Inputs) : bool :=
  PrimFloat.leb (float_of_int 5) (loan_int_rate i)
  && PrimFloat.leb (loan_int_rate i) (float_of_int 25).

(** [if not ok: st.warning(text)] *)
Definition warn_unless (ok : bool) (text : string) : Script unit :=
  if negb ok then emit (warning text) else ret tt.

Definition advisory_warnings (i : Inputs) : Script unit :=
  warn_unless (age_in_range i) age_warning ;;
  warn_unless (income_in_range i) income_warning ;;
  warn_unless (emp_length_in_range i) emp_length_warning ;;
  warn_unless (loan_amnt_in_range i) loan_amnt_warning ;;
  warn_unless (int_rate_in_range i) int_rate_warning.

(** ** Predict button (lines 64-124) *)

(** line 67 *)
Definition cb_person_default_on_file_bin (i : Inputs) : Z :=
  if (cb_person_default_on_file i =? "Y")%string then 1 else 0.

(** line 68 *)
Definition debt_to_income_ratio (i : Inputs) : outcome float :=
  truediv (loan_amnt i) (Py.max (person_income i) 1).

(** lines 71-81 *)
Definition numeric_df (i : Inputs) (ratio : float) : DataFrame :=
  [ ("person_age", Int (person_age i));
    ("person_income", Int (person_income i));
    ("person_emp_length", Int (person_emp_length i));
    ("loan_amnt", Int (loan_amnt i));
    ("loan_int_rate", Float (loan_int_rate i));
    ("loan_percent_income", Float (loan_percent_income i));
    ("cb_person_cred_hist_length", Int (cb_person_cred_hist_length i));
    ("cb_person_default_on_file", Int (cb_person_default_on_file_bin i));
    ("debt_to_income_ratio", Float ratio) ].

(** lines 84-88 *)
Definition cat_df (i : Inputs) : DataFrame :=
  [ ("person_home_ownership", Str (person_home_ownership i));
    ("loan_intent", Str (loan_intent i));
    ("loan_grade", Str (loan_grade i)) ].

(** lines 91-94 *)
Definition input_df (dt : dummy_dtype) (i : Inputs) (ratio : float) : DataFrame :=
  let cat_df_encoded := get_dummies dt (cat_df i) in
  concat_columns (numeric_df i ratio) cat_df_encoded.

(** line 97: reading an attribute the object does not have. *)
Definition no_attribute (m : Model) (name : string) : exn :=
  mk_exn AttributeError
         ("'" ++ class_name m ++ "' object has no attribute '" ++ name ++ "'").

(** The [AttributeError] of reading a [feature_names_in_] that is not
    there: the class's own, or Python's. *)
Definition feature_names_in_error (m : Model) : exn :=
  match feature_names_in_raises m with
  | Some text => mk_exn AttributeError text
  | None => no_attribute m "feature_names_in_"
  end.

Definition get_feature_names_in_ (m : Model) : outcome (list string) :=
  match feature_names_in_ m with
  | Some cols => Returned cols
  | None => Raised (feature_names_in_error m)
  end.

(** lines 98-100, one turn of the loop *)
Definition ensure_column (df : DataFrame) (col : string) : DataFrame :=
  if negb (contains df col) then setitem df col (Int 0) else df.

(** lines 98-103 *)
Definition alignToSchema (df : DataFrame) (model_columns : list string)
  : outcome DataFrame :=
  getitem (fold_left ensure_column model_columns df) model_columns.

(** [a[k]] on an array, as numpy words its [IndexError]. *)
Definition item {A} (a : list A) (k : nat) : outcome A :=
  match nth_error a k with
  | Some x => Returned x
  | None =>
      Raised (mk_exn IndexError
                ("index " ++ string_of_N (N.of_nat k)
                 ++ " is out of bounds for axis 0 with size "
                 ++ string_of_N (N.of_nat (List.length a))))
  end.

(** lines 109-112 *)
Definition predictProbability (m : Model) (X : DataFrame) : Script (option float) :=
  match predict_proba m with
  | Some proba_of =>
      emit (called_predict_proba X) ;;
      rows <- lift (proba_of X) ;;
      row <- lift (item rows 0) ;;
      p <- lift (item row 1) ;;
      ret (Some p)
  | None => ret None
  end.

Definition approved_message : string := "✅ Loan Approved!".
Definition not_approved_message : string := "❌ Loan Not Approved!".

Definition probability_line (a : product_arith) (proba : float) : string :=
  "Approval Probability: " ++ format_2f (times_int a proba 100) ++ "%".

(** lines 115-121 *)
Definition show_result (a : product_arith) (prediction : Z)
           (proba : option float) : Script unit :=
  (if prediction =? 1
   then emit (success approved_message)
   else emit (error not_approved_message)) ;;
  match proba with
  | Some p => emit (info (probability_line a p))
  | None => ret tt
  end.

(** lines 106-121 *)
Definition predict_and_show (m : Model) (X : DataFrame) : Script unit :=
  emit (called_predict X) ;;
  labels <- lift (predict m X) ;;
  prediction <- lift (item labels 0) ;;
  proba <- predictProbability m X ;;
  show_result (proba_arith m) prediction proba.

(** lines 66-121, the body of the [try] *)
Definition predict_body (dt : dummy_dtype) (m : Model) (i : Inputs) : Script unit :=
  ratio <- lift (debt_to_income_ratio i) ;;
  model_columns <- lift (get_feature_names_in_ m) ;;
  X <- lift (alignToSchema (input_df dt i ratio) model_columns) ;;
  predict_and_show m X.

(** line 124 *)
Definition prediction_error (e : exn) : string :=
  "Error during prediction: " ++ exn_str e.

(** lines 65-124 *)
Definition on_predict (dt : dummy_dtype) (m : Model) (i : Inputs) : Script unit :=
  try_except_Exception (predict_body dt m i)
                       (fun e => emit (error (prediction_error e))).

(** The whole script, top to bottom. *)
Definition script (env : Env) : Script unit :=
  model <- load_model env ;;
  page_header ;;
  i <- collector env ;;
  advisory_warnings i ;;
  emit (button "Predict") ;;
  if predict_pressed env then on_predict (dummies env) model i else ret tt.

End App.
Export App.

(* ================================================================== *)
(** * Vocabulary of the properties *)
(* ================================================================== *)

Module Props.

(** What alignment leaves in column [c]: the value the assembled frame
    had there, or the fill value 0. *)
Definition aligned_value (df : DataFrame) (c : string) : cell :=
  match cell_at df c with
  | Some v => v
  | None => Int 0
  end.

(** The frame alignment is expected to give for a schema. *)
Definition reindexed (df : DataFrame) (schema : list string) : DataFrame :=
  map (fun c => (c, aligned_value df c)) schema.

(** The Streamlit elements among the events of a run: what is drawn. *)
Definition is_element (ev : event) : bool :=
  match ev with
  | called_predict _ | called_predict_proba _ => false
  | _ => true
  end.

Definition elements (t : list event) : list event := filter is_element t.

(** [0 <= p <= 1] on floats. *)
Definition is_probability (p : float) : bool :=
  PrimFloat.leb 0 p && PrimFloat.leb p 1.

(** The contract of a probabilistic classifier: every entry of every
    row [predict_proba] returns is a probability. *)
Definition probabilistic (m : Model) : Prop :=
  forall proba_of X rows,
    predict_proba m = Some proba_of ->
    proba_of X = Returned rows ->
    Forall (Forall (fun p => is_probability p = true)) rows.

(** The five advisory warnings, in the order the script checks them. *)
Definition five_warnings : list event :=
  [ warning age_warning; warning income_warning;
    warning emp_length_warning; warning loan_amnt_warning;
    warning int_rate_warning ].

(** The names of the nine numeric columns of the assembled frame. *)
Definition numeric_columns : list string :=
  [ "person_age"; "person_income"; "person_emp_length"; "loan_amnt";
    "loan_int_rate"; "loan_percent_income"; "cb_person_cred_hist_length";
    "cb_person_default_on_file"; "debt_to_income_ratio" ].

(** The decision line for a label. *)
Definition decision (prediction : Z) : event :=
  if prediction =? 1 then success approved_message
  else error not_approved_message.

(** Every way lines 106-121 can go for the frame [X]. *)
Inductive invocation_shape (a : product_arith) (X : DataFrame)
  : Script unit -> Prop :=
| predict_raised e :
    invocation_shape a X ([called_predict X], Raised e)
| proba_absent l :
    invocation_shape a X ([called_predict X; decision l], Returned tt)
| proba_raised e :
    invocation_shape a X ([called_predict X; called_predict_proba X], Raised e)
| proba_shown l p :
    invocation_shape a X ([called_predict X; called_predict_proba X; decision l;
                           info (probability_line a p)], Returned tt).

(** A classifier whose methods raise nothing outside [Exception]. *)
Definition raises_only_Exception (m : Model) : Prop :=
  (forall X e, predict m X = Raised e -> isinstance_Exception e = true)
  /\ (forall proba_of X e,
        predict_proba m = Some proba_of ->
        proba_of X = Raised e -> isinstance_Exception e = true).

(** The form as drawn on every run that gets past loading. *)
Definition form_events (env : Env) : list event :=
  (trace page_header ++ trace (collector env))%list.

End Props.
Export Props.

(* ================================================================== *)
(** * Sample classifiers, inputs and environments *)
(* ================================================================== *)

Module Examples.

(** The applicant of the first end-to-end scenario. *)
Definition scenario_1 : Inputs :=
  {| person_age := 30; person_income := 50000; person_emp_length := 5;
     person_home_ownership := "RENT"; cb_person_default_on_file := "N";
     cb_person_cred_hist_length := 10; loan_intent := "EDUCATION";
     loan_grade := "B"; loan_amnt := 10000; loan_int_rate := 12.5%float;
     loan_percent_income := 0.2%float |}.

(** An applicant who defaulted before and reports no income. *)
Definition no_income : Inputs :=
  {| person_age := 19; person_income := 0; person_emp_length := 0;
     person_home_ownership := "OTHER"; cb_person_default_on_file := "Y";
     cb_person_cred_hist_length := 0; loan_intent := "MEDICAL";
     loan_grade := "G"; loan_amnt := 1000; loan_int_rate := 30%float;
     loan_percent_income := 0.5%float |}.

(** A schema as training with the first level of each category dropped
    leaves it: no column for MORTGAGE, DEBTCONSOLIDATION and grade A. *)
Definition schema : list string :=
  [ "person_age"; "person_income"; "person_emp_length"; "loan_amnt";
    "loan_int_rate"; "loan_percent_income"; "cb_person_cred_hist_length";
    "cb_person_default_on_file"; "debt_to_income_ratio";
    "person_home_ownership_OTHER"; "person_home_ownership_OWN";
    "person_home_ownership_RENT";
    "loan_intent_EDUCATION"; "loan_intent_HOMEIMPROVEMENT";
    "loan_intent_MEDICAL"; "loan_intent_PERSONAL"; "loan_intent_VENTURE";
    "loan_grade_B"; "loan_grade_C"; "loan_grade_D"; "loan_grade_E";
    "loan_grade_F"; "loan_grade_G" ].

(** The text with which [XGBClassifier.feature_names_in_] raises its
    [AttributeError] when the booster has no feature names. *)
Definition xgboost_no_feature_names : string :=
  "`feature_names_in_` is defined only when `X` has feature names that are all strings.".

(** Approves when the applicant rents. *)
Definition approves_renters (X : DataFrame) : outcome (list Z) :=
  match cell_at X "person_home_ownership_RENT" with
  | Some v => Returned [if eq_int v 1 then 1 else 0]
  | None => Returned [0]
  end.

Definition classifier : Model :=
  {| class_name := "XGBClassifier";
     feature_names_in_raises := Some xgboost_no_feature_names;
     proba_arith := binary32_product;
     feature_names_in_ := Some schema;
     predict := approves_renters;
     predict_proba := Some (fun _ => Returned [[0.125%float; 0.875%float]]) |}.

Definition classifier_without_proba : Model :=
  {| class_name := "LinearSVC";
     feature_names_in_raises := None;
     proba_arith := binary64_product;
     feature_names_in_ := Some schema;
     predict := approves_renters;
     predict_proba := None |}.

Definition classifier_without_schema : Model :=
  {| class_name := "XGBClassifier";
     feature_names_in_raises := Some xgboost_no_feature_names;
     proba_arith := binary32_product;
     feature_names_in_ := None;
     predict := approves_renters;
     predict_proba := None |}.


(** A classifier whose [predict] ends the interpreter. *)
Definition classifier_exiting : Model :=
  {| class_name := "XGBClassifier";
     feature_names_in_raises := Some xgboost_no_feature_names;
     proba_arith := binary32_product;
     feature_names_in_ := Some schema;
     predict := fun _ => Raised (mk_exn SystemExit "1");
     predict_proba := None |}.

(** A classifier whose [predict] fails with an ordinary error. *)
Definition classifier_failing : Model :=
  {| class_name := "XGBClassifier";
     feature_names_in_raises := Some xgboost_no_feature_names;
     proba_arith := binary32_product;
     feature_names_in_ := Some schema;
     predict := fun _ =>
       Raised (mk_exn (OtherException "XGBoostError") "feature_names mismatch");
     predict_proba := None |}.

Definition deployed (m : Model) (i : Inputs) (pressed : bool) : Env :=
  {| script_dir := "/srv/loan";
     path_exists := fun p => (p =? "/srv/loan/Model/best_xgb.pkl")%string;
     joblib_load := fun _ => Returned m;
     dummies := dummy_bool;
     inputs := i;
     predict_pressed := pressed |}.

Definition without_artifact (i : Inputs) : Env :=
  {| script_dir := "/srv/loan";
     path_exists := fun _ => false;
     joblib_load := fun p =>
       Raised (mk_exn FileNotFoundError
                 ("[Errno 2] No such file or directory: '" ++ p ++ "'"));
     dummies := dummy_bool;
     inputs := i;
     predict_pressed := false |}.

End Examples.

(* ================================================================== *)
(** * Further vocabulary and samples *)
(* ================================================================== *)

Module Further.

(** The calls of the classifier among the events of a run, in order. *)
Definition calls (t : list event) : list event :=
  filter (fun ev => negb (is_element ev)) t.

(** The events only the handler of the Predict button produces: its three
    kinds of message and its calls of the classifier. *)
Definition from_handler (ev : event) : bool :=
  match ev with
  | success _ | error _ | info _
  | called_predict _ | called_predict_proba _ => true
  | _ => false
  end.

(** How lines 106-121 went for the frame [X], with what the classifier
    answered on the way. *)
Inductive invocation_case (m : Model) (X : DataFrame) : Script unit -> Prop :=
| case_predict_raised e :
    predict m X = Raised e ->
    invocation_case m X ([called_predict X], Raised e)
| case_no_label labels e :
    predict m X = Returned labels ->
    item labels 0 = Raised e ->
    invocation_case m X ([called_predict X], Raised e)
| case_no_proba labels l :
    predict m X = Returned labels ->
    item labels 0 = Returned l ->
    predict_proba m = None ->
    invocation_case m X ([called_predict X; decision l], Returned tt)
| case_proba_failed labels l e :
    predict m X = Returned labels ->
    item labels 0 = Returned l ->
    predict_proba m <> None ->
    predictProbability m X = ([called_predict_proba X], Raised e) ->
    invocation_case m X ([called_predict X; called_predict_proba X], Raised e)
| case_proba_shown labels l p :
    predict m X = Returned labels ->
    item labels 0 = Returned l ->
    predict_proba m <> None ->
    predictProbability m X = ([called_predict_proba X], Returned (Some p)) ->
    invocation_case m X ([called_predict X; called_predict_proba X; decision l;
                          info (probability_line (proba_arith m) p)], Returned tt).

(** The label of the indicator column for a value of a categorical field. *)
Definition indicator_label (field value : string) : string :=
  field ++ "_" ++ value.

(** The applicant [i] with another home ownership. *)
Definition with_home_ownership (i : Inputs) (v : string) : Inputs :=
  {| person_age := person_age i;
     person_income := person_income i;
     person_emp_length := person_emp_length i;
     person_home_ownership := v;
     cb_person_default_on_file := cb_person_default_on_file i;
     cb_person_cred_hist_length := cb_person_cred_hist_length i;
     loan_intent := loan_intent i;
     loan_grade := loan_grade i;
     loan_amnt := loan_amnt i;
     loan_int_rate := loan_int_rate i;
     loan_percent_income := loan_percent_income i |}.

(** A classifier fitted on one class: [predict_proba] has one column. *)
Definition classifier_single_class : Model :=
  {| class_name := "LogisticRegression";
     feature_names_in_raises := None;
     proba_arith := binary64_product;
     feature_names_in_ := Some Examples.schema;
     predict := fun _ => Returned [0];
     predict_proba := Some (fun _ => Returned [[1%float]]) |}.

(** A classifier whose [predict] returns an empty array. *)
Definition classifier_silent : Model :=
  {| class_name := "XGBClassifier";
     feature_names_in_raises := Some Examples.xgboost_no_feature_names;
     proba_arith := binary32_product;
     feature_names_in_ := Some Examples.schema;
     predict := fun _ => Returned [];
     predict_proba := Some (fun _ => Returned [[0.5%float; 0.5%float]]) |}.

(** An applicant of 18, the youngest the age widget lets through. *)
Definition youngest : Inputs :=
  {| person_age := 18; person_income := 10000; person_emp_length := 0;
     person_home_ownership := "MORTGAGE"; cb_person_default_on_file := "Y";
     cb_person_cred_hist_length := 0; loan_intent := "DEBTCONSOLIDATION";
     loan_grade := "A"; loan_amnt := 5000; loan_int_rate := 5%float;
     loan_percent_income := 0.5%float |}.

(** A schema fitted on data in which only renters and owners occurred. *)
Definition schema_two_homes : list string :=
  [ "person_age"; "person_income"; "person_emp_length"; "loan_amnt";
    "loan_int_rate"; "loan_percent_income"; "cb_person_cred_hist_length";
    "cb_person_default_on_file"; "debt_to_income_ratio";
    "person_home_ownership_OWN"; "person_home_ownership_RENT";
    "loan_intent_EDUCATION"; "loan_intent_MEDICAL"; "loan_grade_A";
    "loan_grade_B" ].

Definition classifier_two_homes : Model :=
  {| class_name := "XGBClassifier";
     feature_names_in_raises := Some Examples.xgboost_no_feature_names;
     proba_arith := binary32_product;
     feature_names_in_ := Some schema_two_homes;
     predict := Examples.approves_renters;
     predict_proba := None |}.

End Further.
Export Further.

(* ================================================================== *)
(** * Python arithmetic *)
(* ================================================================== *)

Section Arithmetic.

Lemma max_eq (a b : Z) : Py.max a b = Z.max a b.
Proof.
  unfold Py.max. destruct (Z.gtb_spec b a); lia.
Qed.

(** Dividing by a non-zero int gives a float or overflows; it does not
    raise [ZeroDivisionError]. *)
Lemma truediv_nonzero (a b : Z) :
  b <> 0 ->
  (exists q, truediv a b = Returned q)
  \/ (exists e, truediv a b = Raised e /\ exn_class_of e = OverflowError).
Proof.
  intros Hb. unfold truediv.
  destruct (Z.eqb_spec b 0) as [E|_]; [contradiction|].
  destruct (SFdiv _ _ _ _); try (left; eexists; reflexivity).
  right. eexists. split; reflexivity.
Qed.

Lemma truediv_zero (a : Z) :
  truediv a 0 = Raised (mk_exn ZeroDivisionError "division by zero").
Proof. reflexivity. Qed.

(** ** Rounding: when the quotient of two ints is a float *)

Local Abbreviation fexp := (SpecFloat.fexp FloatOps.prec FloatOps.emax).

Lemma fexp_eq (e : Z) : fexp e = Z.max (e - 53) (-1074).
Proof. reflexivity. Qed.

Lemma Zdigits2_log2 (m : Z) : 0 < m -> Zdigits2 m = Z.log2 m + 1.
Proof.
  destruct m as [|p|p]; try lia. intros _. simpl.
  induction p as [p IH|p IH|]; simpl; try reflexivity.
  - destruct p; simpl in *; lia.
  - destruct p; simpl in *; lia.
Qed.

Lemma Zdigits2_nonneg (m : Z) : 0 <= Zdigits2 m.
Proof. destruct m; simpl; lia. Qed.

Lemma Zdigits2_le (m n : Z) : 0 <= m <= n -> Zdigits2 m <= Zdigits2 n.
Proof.
  intros [Hm Hmn]. destruct (Z.eq_dec m 0) as [->|Hne].
  - apply Zdigits2_nonneg.
  - rewrite !Zdigits2_log2 by lia.
    apply Z.add_le_mono_r, Z.log2_le_mono. exact Hmn.
Qed.

Lemma Zdigits2_succ (m : Z) : 0 <= m -> Zdigits2 (m + 1) <= Zdigits2 m + 1.
Proof.
  intros Hm. destruct (Z.eq_dec m 0) as [->|Hne]; [vm_compute; discriminate|].
  rewrite !Zdigits2_log2 by lia. change (m + 1) with (Z.succ m).
  pose proof (Z.log2_succ_le m). lia.
Qed.

Lemma Zdigits2_shiftl (m s : Z) :
  0 < m -> 0 <= s -> Zdigits2 (Z.shiftl m s) = Zdigits2 m + s.
Proof.
  intros Hm Hs. rewrite Z.shiftl_mul_pow2 by assumption.
  assert (0 < 2 ^ s) by (apply Z.pow_pos_nonneg; lia).
  rewrite !Zdigits2_log2 by nia.
  rewrite Z.log2_mul_pow2 by lia. lia.
Qed.

Lemma shr_1_m (mrs : shr_record) :
  0 <= shr_m mrs ->
  0 <= shr_m (shr_1 mrs)
  /\ Zdigits2 (shr_m (shr_1 mrs)) = Z.max 0 (Zdigits2 (shr_m mrs) - 1).
Proof.
  destruct mrs as [m r s]. cbn [shr_m]. intros Hm.
  destruct m as [|[p|p|]|p];
    cbn [shr_1 shr_m Zdigits2 digits2_pos]; rewrite ?Pos2Z.inj_succ; lia.
Qed.

Lemma iter_shr_1 (p : positive) : forall (mrs : shr_record) (d k : Z),
  0 <= k ->
  0 <= shr_m mrs /\ Zdigits2 (shr_m mrs) <= Z.max 0 (d - k) ->
  0 <= shr_m (iter_pos shr_1 p mrs)
  /\ Zdigits2 (shr_m (iter_pos shr_1 p mrs)) <= Z.max 0 (d - (k + Zpos p)).
Proof.
  assert (Hstep : forall mrs d k,
            0 <= shr_m mrs /\ Zdigits2 (shr_m mrs) <= Z.max 0 (d - k) ->
            0 <= shr_m (shr_1 mrs)
            /\ Zdigits2 (shr_m (shr_1 mrs)) <= Z.max 0 (d - (k + 1))).
  { intros mrs d k [H0 Hd]. destruct (shr_1_m mrs H0) as [H1 H2].
    split; [exact H1 | lia]. }
  induction p as [p IH|p IH|]; intros mrs d k Hk H; simpl.
  - apply Hstep in H. apply (IH _ d (k + 1)) in H; [|lia].
    apply (IH _ d (k + 1 + Zpos p)) in H; [|lia].
    replace (k + Zpos p~1) with (k + 1 + Zpos p + Zpos p) by lia. exact H.
  - apply (IH _ d k) in H; [|lia].
    apply (IH _ d (k + Zpos p)) in H; [|lia].
    replace (k + Zpos p~0) with (k + Zpos p + Zpos p) by lia. exact H.
  - now apply Hstep.
Qed.

Lemma shr_record_of_loc_m (m : Z) (l : location) :
  shr_m (shr_record_of_loc m l) = m.
Proof. destruct l as [|[]]; reflexivity. Qed.

Lemma shr_fexp_bounds (m e : Z) (l : location) :
  0 <= m ->
  let r := shr_fexp FloatOps.prec FloatOps.emax m e l in
  0 <= shr_m (fst r)
  /\ snd r = Z.max e (fexp (Zdigits2 m + e))
  /\ Zdigits2 (shr_m (fst r)) + snd r <= Z.max (Zdigits2 m + e) (snd r).
Proof.
  intros Hm. unfold shr_fexp, shr.
  set (n := fexp (Zdigits2 m + e) - e).
  destruct n as [|p|p] eqn:En; cbn [fst snd]; rewrite ?shr_record_of_loc_m.
  - repeat split; lia.
  - destruct (iter_shr_1 p (shr_record_of_loc m l) (Zdigits2 m) 0) as [H0 Hd].
    + lia.
    + rewrite shr_record_of_loc_m. pose proof (Zdigits2_nonneg m). lia.
    + repeat split; [exact H0 | lia | lia].
  - repeat split; lia.
Qed.

Lemma round_nearest_even_bounds (m : Z) (l : location) :
  0 <= m ->
  0 <= round_nearest_even m l
  /\ Zdigits2 (round_nearest_even m l) <= Zdigits2 m + 1.
Proof.
  intros Hm. pose proof (Zdigits2_succ m Hm).
  unfold round_nearest_even.
  destruct l as [|[]]; try destruct (Z.even m); split; lia.
Qed.

(** Rounding a magnitude below 2^1023 does not give an infinity. *)
Lemma binary_round_aux_finite (sx : bool) (mx ex : Z) (lx : location) :
  0 <= mx -> ex <= 971 -> Zdigits2 mx + ex <= 1023 ->
  forall s, binary_round_aux FloatOps.prec FloatOps.emax sx mx ex lx
            <> S754_infinity s.
Proof.
  intros Hm He Hd s. unfold binary_round_aux.
  pose proof (shr_fexp_bounds mx ex lx Hm) as H1. cbv zeta in H1.
  destruct (shr_fexp FloatOps.prec FloatOps.emax mx ex lx) as [mrs1 e1].
  cbn [fst snd] in H1. destruct H1 as [H1m [H1e H1d]].
  destruct (round_nearest_even_bounds (shr_m mrs1) (loc_of_shr_record mrs1) H1m)
    as [H2m H2d].
  pose proof (shr_fexp_bounds _ e1 loc_Exact H2m) as H3. cbv zeta in H3.
  destruct (shr_fexp FloatOps.prec FloatOps.emax
              (round_nearest_even (shr_m mrs1) (loc_of_shr_record mrs1))
              e1 loc_Exact) as [mrs2 e2].
  cbn [fst snd] in H3. destruct H3 as [_ [H3e _]].
  rewrite fexp_eq in H1e, H3e.
  assert (Hle : e2 <= 971) by lia.
  destruct (shr_m mrs2); try discriminate.
  change (FloatOps.emax - FloatOps.prec) with 971.
  apply Z.leb_le in Hle. rewrite Hle. discriminate.
Qed.

(** The quotient of two ints of which the dividend is below 2^1023 in
    magnitude is not an infinity. *)
Lemma SFdiv_ints_finite (sa sb : bool) (a b : positive) :
  Zdigits2 (Zpos a) <= 1023 ->
  forall s, SFdiv FloatOps.prec FloatOps.emax
                  (S754_finite sa a 0) (S754_finite sb b 0)
            <> S754_infinity s.
Proof.
  intros Ha s. unfold SFdiv, SFdiv_core_binary.
  set (d1 := Zdigits2 (Zpos a)) in *. set (d2 := Zdigits2 (Zpos b)).
  set (e := Z.min (fexp (d1 + 0 - (d2 + 0))) (0 - 0)).
  assert (He : e <= 0) by (unfold e; lia).
  set (m := match 0 - 0 - e with
            | 0 => Zpos a
            | Zpos _ => Z.shiftl (Zpos a) (0 - 0 - e)
            | Zneg _ => 0
            end).
  assert (Hm : 0 <= m /\ Zdigits2 m = d1 - e).
  { unfold m. destruct (0 - 0 - e) as [|p|p] eqn:Es.
    - split; [lia | unfold d1; lia].
    - rewrite Zdigits2_shiftl by lia. rewrite Z.shiftl_mul_pow2 by lia.
      split; [|unfold d1; lia].
      apply Z.mul_nonneg_nonneg; [lia|]. apply Z.pow_nonneg. lia.
    - lia. }
  destruct Hm as [Hm0 Hmd].
  destruct (Z.div_eucl m (Zpos b)) as [q r] eqn:Eq.
  assert (Hq : q = m / Zpos b) by (unfold Z.div; now rewrite Eq).
  assert (Hq0 : 0 <= q) by (subst q; apply Z.div_pos; lia).
  assert (Hqm : q <= m).
  { subst q. apply Z.div_le_upper_bound; [lia|]. nia. }
  apply binary_round_aux_finite; [exact Hq0 | lia |].
  pose proof (Zdigits2_le q m (conj Hq0 Hqm)). lia.
Qed.

Lemma Zdigits2_below (m k : Z) : 0 < m < 2 ^ k -> Zdigits2 m <= k.
Proof.
  intros [H0 Hk]. rewrite Zdigits2_log2 by assumption.
  assert (0 < k).
  { destruct (Z_lt_le_dec 0 k) as [|Hle]; [assumption|].
    destruct (Z.eq_dec k 0) as [->|]; [simpl in Hk; lia|].
    rewrite Z.pow_neg_r in Hk by lia. lia. }
  apply Z.log2_lt_pow2 in Hk; lia.
Qed.

(** Within 2^1023 the division of line 68 returns a float. *)
Lemma truediv_returns (a b : Z) :
  b <> 0 -> Z.abs a < 2 ^ 1023 -> exists q, truediv a b = Returned q.
Proof.
  intros Hb Ha. unfold truediv.
  destruct (Z.eqb_spec b 0) as [E|_]; [contradiction|].
  destruct (SFdiv _ _ _ _) as [s0|s0| |s0 m0 e0] eqn:Ediv;
    try (eexists; reflexivity).
  exfalso. revert Ediv.
  destruct a as [|pa|pa], b as [|pb|pb]; try contradiction; try discriminate;
    apply SFdiv_ints_finite; apply Zdigits2_below; simpl in Ha; lia.
Qed.

(** The two arithmetics of line 121 can differ in the last digit shown:
    for the float32 probability 0.82015001773834228515625 the binary32
    product prints as 82.01 and the binary64 product as 82.02. *)
Lemma binary32_product_shows_another_cent :
  probability_line binary32_product 0x1.a3eab4p-1%float
  = "Approval Probability: 82.01%"%string
  /\ probability_line binary64_product 0x1.a3eab4p-1%float
     = "Approval Probability: 82.02%"%string.
Proof. split; vm_compute; reflexivity. Qed.

End Arithmetic.

(* ================================================================== *)
(** * Frames: lookup, filling and selection *)
(* ================================================================== *)

Local Open Scope list_scope.

Section Frames.

Implicit Types (df : DataFrame) (c k : string) (cols : list string).

Lemma In_eqb (x : string) (l : list string) :
  existsb (String.eqb x) l = true <-> In x l.
Proof.
  rewrite existsb_exists. split.
  - intros [y [Hin Heq]]. apply String.eqb_eq in Heq. now subst.
  - intros Hin. exists x. split; [assumption | apply String.eqb_refl].
Qed.

Lemma not_In_eqb (x : string) (l : list string) :
  existsb (String.eqb x) l = false <-> ~ In x l.
Proof.
  rewrite <- In_eqb. destruct (existsb (String.eqb x) l); split; congruence.
Qed.

Lemma contains_In df c : contains df c = true <-> In c (columns df).
Proof.
  unfold contains. rewrite existsb_exists. split.
  - intros [x [Hin Heq]]. apply String.eqb_eq in Heq. now subst.
  - intros Hin. exists c. split; [assumption | apply String.eqb_refl].
Qed.

Lemma contains_false_not_In df c : contains df c = false <-> ~ In c (columns df).
Proof.
  rewrite <- contains_In. destruct (contains df c); split; congruence.
Qed.

Lemma labelled_app df1 df2 c :
  labelled (df1 ++ df2) c = (labelled df1 c ++ labelled df2 c)%list.
Proof. unfold labelled. apply filter_app. Qed.

Lemma labelled_absent df c : contains df c = false -> labelled df c = [].
Proof.
  induction df as [|[k v] df IH]; simpl; [reflexivity|].
  unfold contains in *. simpl. rewrite String.eqb_sym.
  destruct (k =? c)%string; simpl; [discriminate | exact IH].
Qed.

Lemma cell_at_absent df c : contains df c = false -> cell_at df c = None.
Proof. intros H. unfold cell_at. now rewrite labelled_absent. Qed.

Lemma cell_at_present df c :
  contains df c = true -> exists v, cell_at df c = Some v /\ In (c, v) df.
Proof.
  induction df as [|[k v] df IH]; simpl; [discriminate|].
  unfold contains, cell_at in *. simpl. rewrite String.eqb_sym.
  destruct (k =? c)%string eqn:E; simpl.
  - intros _. apply String.eqb_eq in E. subst. exists v. auto.
  - intros H. destruct (IH H) as [w [Hw Hin]]. exists w. auto.
Qed.

(** In a frame without duplicate labels a label selects at most one
    column. *)
Lemma labelled_NoDup df c :
  NoDup (columns df) ->
  labelled df c = match cell_at df c with Some v => [(c, v)] | None => [] end.
Proof.
  induction df as [|[k v] df IH]; simpl; intros Hnd; [reflexivity|].
  inversion Hnd as [|x l Hnotin Hnd']; subst.
  unfold cell_at, labelled in *. simpl.
  destruct (k =? c)%string eqn:E.
  - apply String.eqb_eq in E. subst k.
    apply contains_false_not_In, labelled_absent in Hnotin.
    unfold labelled in Hnotin. now rewrite Hnotin.
  - now apply IH.
Qed.

Lemma ensure_column_eq df c :
  ensure_column df c = if contains df c then df else (df ++ [(c, Int 0)])%list.
Proof.
  unfold ensure_column, setitem. now destruct (contains df c).
Qed.

Lemma columns_ensure_column df c :
  columns (ensure_column df c)
  = if contains df c then columns df else (columns df ++ [c])%list.
Proof.
  rewrite ensure_column_eq. destruct (contains df c); [reflexivity|].
  unfold columns. now rewrite map_app.
Qed.

Lemma ensure_column_NoDup df c :
  NoDup (columns df) -> NoDup (columns (ensure_column df c)).
Proof.
  intros Hnd. rewrite columns_ensure_column.
  destruct (contains df c) eqn:E; [assumption|].
  apply contains_false_not_In in E.
  apply NoDup_app; [assumption | repeat constructor; simpl; tauto |].
  intros x Hx [Hc|[]]. subst. contradiction.
Qed.

Lemma cell_at_ensure_column df c k :
  cell_at (ensure_column df c) k
  = match cell_at df k with
    | Some v => Some v
    | None => if (c =? k)%string && negb (contains df c)
              then Some (Int 0) else None
    end.
Proof.
  rewrite ensure_column_eq. destruct (contains df c) eqn:Ec.
  - rewrite andb_false_r. now destruct (cell_at df k).
  - rewrite andb_true_r. unfold cell_at. rewrite labelled_app.
    unfold labelled at 2. simpl.
    destruct (labelled df k); simpl; [|reflexivity].
    now destruct (c =? k)%string.
Qed.

(** The loop of lines 98-100 keeps labels unique, keeps every value that
    was there, and puts 0 under each schema label that was not. *)
Lemma fill_NoDup cols : forall df,
  NoDup (columns df) -> NoDup (columns (fold_left ensure_column cols df)).
Proof.
  induction cols as [|c cols IH]; simpl; intros df Hnd; [assumption|].
  apply IH. now apply ensure_column_NoDup.
Qed.

Lemma cell_at_fill cols : forall df k,
  cell_at (fold_left ensure_column cols df) k
  = match cell_at df k with
    | Some v => Some v
    | None => if existsb (String.eqb k) cols then Some (Int 0) else None
    end.
Proof.
  induction cols as [|c cols IH]; simpl; intros df k.
  - now destruct (cell_at df k).
  - rewrite IH, cell_at_ensure_column. rewrite (String.eqb_sym k c).
    destruct (cell_at df k) eqn:Ek; [reflexivity|].
    destruct (c =? k)%string eqn:Eck; simpl; [|reflexivity].
    apply String.eqb_eq in Eck. subst k.
    destruct (contains df c) eqn:Ec; simpl; [|reflexivity].
    destruct (cell_at_present df c Ec) as [v [Hv _]]. congruence.
Qed.

Lemma contains_cell_at df c : contains df c = true <-> cell_at df c <> None.
Proof.
  split.
  - intros H. destruct (cell_at_present df c H) as [v [Hv _]]. congruence.
  - intros H. destruct (contains df c) eqn:E; [reflexivity|].
    now apply cell_at_absent in E.
Qed.

Lemma fill_contains cols df k :
  In k cols -> contains (fold_left ensure_column cols df) k = true.
Proof.
  intros Hin. apply contains_cell_at. rewrite cell_at_fill.
  destruct (cell_at df k); [discriminate|].
  assert (E : existsb (String.eqb k) cols = true).
  { apply existsb_exists. exists k. split; [assumption | apply String.eqb_refl]. }
  rewrite E. discriminate.
Qed.

(** Selecting labels that are all there, from a frame without duplicate
    labels, gives one column per label, in the order of the labels. *)
Lemma getitem_present df cols :
  NoDup (columns df) ->
  (forall k, In k cols -> contains df k = true) ->
  getitem df cols = Returned (map (fun c => (c, aligned_value df c)) cols).
Proof.
  intros Hnd Hall. unfold getitem.
  assert (Hnone : filter (fun k => negb (contains df k)) cols = []).
  { clear Hnd. induction cols as [|c cols IH]; simpl; [reflexivity|].
    rewrite (Hall c) by (simpl; auto). simpl. apply IH.
    intros k Hk. apply Hall. simpl. auto. }
  rewrite Hnone. f_equal.
  clear Hnone. induction cols as [|c cols IH]; simpl; [reflexivity|].
  rewrite IH by (intros k Hk; apply Hall; simpl; auto).
  rewrite labelled_NoDup by assumption.
  unfold aligned_value.
  assert (Hc : contains df c = true) by (apply Hall; simpl; auto).
  apply contains_cell_at in Hc. destruct (cell_at df c); [reflexivity | congruence].
Qed.

(** Lines 98-103 as one equation. *)
Lemma alignToSchema_reindexed df cols :
  NoDup (columns df) ->
  alignToSchema df cols = Returned (reindexed df cols).
Proof.
  intros Hnd. unfold alignToSchema, reindexed.
  rewrite getitem_present.
  - apply f_equal. apply map_ext_in. intros c Hc. apply f_equal.
    unfold aligned_value. rewrite cell_at_fill.
    destruct (cell_at df c); [reflexivity|].
    now destruct (existsb (String.eqb c) cols).
  - now apply fill_NoDup.
  - intros k Hk. now apply fill_contains.
Qed.

Lemma columns_reindexed df cols : columns (reindexed df cols) = cols.
Proof.
  unfold columns, reindexed. rewrite map_map. simpl. apply map_id.
Qed.

Lemma cell_at_reindexed df cols c :
  In c cols -> cell_at (reindexed df cols) c = Some (aligned_value df c).
Proof.
  unfold reindexed, cell_at, labelled.
  induction cols as [|k cols IH]; simpl; [tauto|].
  destruct (k =? c)%string eqn:E.
  - apply String.eqb_eq in E. now subst.
  - intros [Hk|Hin]; [subst; now rewrite String.eqb_refl in E | now apply IH].
Qed.

End Frames.

(* ================================================================== *)
(** * The assembled frame *)
(* ================================================================== *)

Section Assembly.

Variables (dt : dummy_dtype) (i : Inputs) (ratio : float).

Lemma columns_input_df :
  columns (input_df dt i ratio)
  = numeric_columns
    ++ [ ("person_home_ownership_" ++ person_home_ownership i)%string;
         ("loan_intent_" ++ loan_intent i)%string;
         ("loan_grade_" ++ loan_grade i)%string ].
Proof. reflexivity. Qed.

(** No two columns of the assembled frame share a label, whatever the
    three selected values are. *)
Lemma input_df_NoDup : NoDup (columns (input_df dt i ratio)).
Proof.
  rewrite columns_input_df. unfold numeric_columns. simpl.
  repeat (constructor; [simpl; intuition discriminate|]).
  constructor.
Qed.

Lemma alignToSchema_input_df (cols : list string) :
  alignToSchema (input_df dt i ratio) cols
  = Returned (reindexed (input_df dt i ratio) cols).
Proof. apply alignToSchema_reindexed, input_df_NoDup. Qed.

End Assembly.

(* ================================================================== *)
(** * Runs: equations of the monad and of the handler *)
(* ================================================================== *)

Section Runs.

Lemma bind_Returned {A B} (a : A) (k : A -> Script B) :
  bind (lift (Returned a)) k = k a.
Proof. unfold bind, lift. simpl. now destruct (k a). Qed.

Lemma bind_pair {A B} (t : list event) (a : A) (k : A -> Script B) :
  bind (t, Returned a) k = (t ++ trace (k a), result (k a)).
Proof. reflexivity. Qed.

Lemma bind_Raised {A B} (e : exn) (k : A -> Script B) :
  bind (lift (Raised e)) k = ([], Raised e).
Proof. reflexivity. Qed.

Lemma bind_emit {B} (ev : event) (k : unit -> Script B) :
  bind (emit ev) k = (ev :: trace (k tt), result (k tt)).
Proof. reflexivity. Qed.

Lemma trace_bind {A B} (m : Script A) (k : A -> Script B) :
  trace (bind m k)
  = match result m with
    | Returned a => trace m ++ trace (k a)
    | Raised _ => trace m
    end.
Proof. unfold bind, trace, result. now destruct (snd m). Qed.

Lemma result_bind {A B} (m : Script A) (k : A -> Script B) :
  result (bind m k)
  = match result m with
    | Returned a => result (k a)
    | Raised e => Raised e
    end.
Proof. unfold bind, trace, result. now destruct (snd m). Qed.

Lemma script_eta {A} (m : Script A) : m = (trace m, result m).
Proof. now destruct m. Qed.

(** The handler of line 123 in one equation. *)
Lemma try_except_Exception_eq (body : Script unit) (text : exn -> string) :
  try_except_Exception body (fun e => emit (error (text e)))
  = match result body with
    | Returned _ => body
    | Raised e =>
        if isinstance_Exception e
        then (trace body ++ [error (text e)], Returned tt)
        else body
    end.
Proof.
  unfold try_except_Exception, result, trace.
  destruct (snd body); [reflexivity|].
  now destruct (isinstance_Exception e).
Qed.

(** A run that drew nothing drew no error line. *)
Lemma nothing_drawn_no_error (t : list event) :
  elements t = [] -> forall text, ~ In (error text) t.
Proof.
  intros Ht text Hin.
  assert (Hin' : In (error text) (elements t))
    by (apply filter_In; split; [exact Hin | reflexivity]).
  rewrite Ht in Hin'. destruct Hin'.
Qed.

End Runs.

(* ================================================================== *)
(** * Lines 106-121: invoking the classifier and showing its answer *)
(* ================================================================== *)

Section Invocation.

Variables (m : Model) (X : DataFrame).

Lemma show_result_eq (a : product_arith) (l : Z) (proba : option float) :
  show_result a l proba
  = (decision l :: match proba with
                   | Some p => [info (probability_line a p)]
                   | None => []
                   end, Returned tt).
Proof.
  unfold show_result, decision.
  destruct (l =? 1); destruct proba; reflexivity.
Qed.

Lemma predictProbability_absent :
  predict_proba m = None -> predictProbability m X = ([], Returned None).
Proof. intros H. unfold predictProbability. now rewrite H. Qed.

Lemma predictProbability_present proba_of rows row p :
  predict_proba m = Some proba_of ->
  proba_of X = Returned rows ->
  item rows 0 = Returned row ->
  item row 1 = Returned p ->
  predictProbability m X = ([called_predict_proba X], Returned (Some p)).
Proof.
  intros Hm Hrows Hrow Hp. unfold predictProbability.
  rewrite Hm, bind_emit, Hrows, bind_Returned, Hrow, bind_Returned, Hp,
    bind_Returned.
  reflexivity.
Qed.

Lemma predict_and_show_without_proba labels l :
  predict m X = Returned labels ->
  item labels 0 = Returned l ->
  predict_proba m = None ->
  predict_and_show m X = ([called_predict X; decision l], Returned tt).
Proof.
  intros Hl Hi Hp. unfold predict_and_show.
  rewrite bind_emit, Hl, bind_Returned, Hi, bind_Returned,
    (predictProbability_absent Hp).
  unfold bind, ret. simpl. now rewrite show_result_eq.
Qed.

Lemma predict_and_show_with_proba labels l proba_of rows row p :
  predict m X = Returned labels ->
  item labels 0 = Returned l ->
  predict_proba m = Some proba_of ->
  proba_of X = Returned rows ->
  item rows 0 = Returned row ->
  item row 1 = Returned p ->
  predict_and_show m X
  = ([called_predict X; called_predict_proba X; decision l;
      info (probability_line (proba_arith m) p)], Returned tt).
Proof.
  intros Hl Hi Hm Hrows Hrow Hp. unfold predict_and_show.
  rewrite bind_emit, Hl, bind_Returned, Hi, bind_Returned,
    (predictProbability_present proba_of rows row p Hm Hrows Hrow Hp).
  unfold bind. simpl. now rewrite show_result_eq.
Qed.

Lemma predict_and_show_shape :
  invocation_shape (proba_arith m) X (predict_and_show m X).
Proof.
  unfold predict_and_show, predictProbability. rewrite bind_emit.
  destruct (predict m X) as [labels|e]; [|apply predict_raised].
  rewrite bind_Returned.
  destruct (item labels 0) as [l|e]; [|apply predict_raised].
  rewrite bind_Returned.
  destruct (predict_proba m) as [proba_of|].
  - rewrite bind_emit.
    destruct (proba_of X) as [rows|e]; [|apply proba_raised].
    rewrite bind_Returned.
    destruct (item rows 0) as [row|e]; [|apply proba_raised].
    rewrite bind_Returned.
    destruct (item row 1) as [p|e]; [|apply proba_raised].
    rewrite bind_Returned. unfold bind. simpl. rewrite show_result_eq.
    apply proba_shown.
  - unfold bind. simpl. rewrite show_result_eq. apply proba_absent.
Qed.

Lemma item_In {A} (a : list A) (k : nat) (x : A) :
  item a k = Returned x -> In x a.
Proof.
  unfold item. destruct (nth_error a k) eqn:E; [|discriminate].
  intros H. injection H as <-. now apply nth_error_In with k.
Qed.

Lemma item_raises {A} (a : list A) (k : nat) (e : exn) :
  item a k = Raised e -> isinstance_Exception e = true.
Proof.
  unfold item. destruct (nth_error a k); [discriminate|].
  intros H. injection H as <-. reflexivity.
Qed.

(** Where an exception that ends lines 106-121 comes from. *)
Lemma predict_and_show_raises (e : exn) :
  result (predict_and_show m X) = Raised e ->
  isinstance_Exception e = true
  \/ predict m X = Raised e
  \/ (exists proba_of, predict_proba m = Some proba_of /\ proba_of X = Raised e).
Proof.
  unfold predict_and_show, predictProbability. rewrite bind_emit.
  unfold result at 1. cbn [snd].
  destruct (predict m X) as [labels|e1] eqn:Hl.
  2:{ rewrite bind_Raised. cbn. intros H. injection H as <-. auto. }
  rewrite bind_Returned.
  destruct (item labels 0) as [l|e1] eqn:Hi.
  2:{ rewrite bind_Raised. cbn. intros H. injection H as <-.
      left. now apply item_raises in Hi. }
  rewrite bind_Returned.
  destruct (predict_proba m) as [proba_of|].
  - rewrite bind_emit.
    destruct (proba_of X) as [rows|e1] eqn:Hr.
    2:{ rewrite bind_Raised. cbn. intros H. injection H as <-.
        right. right. now exists proba_of. }
    rewrite bind_Returned.
    destruct (item rows 0) as [row|e1] eqn:Hrow.
    2:{ rewrite bind_Raised. cbn. intros H. injection H as <-.
        left. now apply item_raises in Hrow. }
    rewrite bind_Returned.
    destruct (item row 1) as [p|e1] eqn:Hp.
    2:{ rewrite bind_Raised. cbn. intros H. injection H as <-.
        left. now apply item_raises in Hp. }
    rewrite bind_Returned. unfold bind. cbn. rewrite show_result_eq.
    discriminate.
  - unfold bind. cbn. rewrite show_result_eq. discriminate.
Qed.

(** An entry the script reads off a probabilistic classifier's answer is
    a probability. *)
Lemma probabilistic_entry proba_of rows row p :
  probabilistic m ->
  predict_proba m = Some proba_of ->
  proba_of X = Returned rows ->
  item rows 0 = Returned row ->
  item row 1 = Returned p ->
  is_probability p = true.
Proof.
  intros Hm Hp Hrows Hrow Hpp. specialize (Hm proba_of X rows Hp Hrows).
  apply item_In in Hrow, Hpp.
  rewrite Forall_forall in Hm. specialize (Hm row Hrow).
  rewrite Forall_forall in Hm. now apply Hm.
Qed.

End Invocation.

(* ================================================================== *)
(** * Lines 65-124: the Predict handler *)
(* ================================================================== *)

Section Handler.

Variables (dt : dummy_dtype) (m : Model) (i : Inputs).

Lemma feature_names_in_error_class :
  exn_class_of (feature_names_in_error m) = AttributeError
  /\ isinstance_Exception (feature_names_in_error m) = true.
Proof.
  unfold feature_names_in_error.
  destruct (feature_names_in_raises m); split; reflexivity.
Qed.

Lemma predict_body_overflow e :
  debt_to_income_ratio i = Raised e ->
  predict_body dt m i = ([], Raised e).
Proof. intros H. unfold predict_body. now rewrite H. Qed.

Lemma predict_body_without_schema ratio :
  debt_to_income_ratio i = Returned ratio ->
  feature_names_in_ m = None ->
  predict_body dt m i = ([], Raised (feature_names_in_error m)).
Proof.
  intros Hr Hs. unfold predict_body, get_feature_names_in_.
  now rewrite Hr, bind_Returned, Hs.
Qed.

Lemma predict_body_aligned ratio cols :
  debt_to_income_ratio i = Returned ratio ->
  feature_names_in_ m = Some cols ->
  predict_body dt m i
  = predict_and_show m (reindexed (input_df dt i ratio) cols).
Proof.
  intros Hr Hs. unfold predict_body, get_feature_names_in_.
  now rewrite Hr, bind_Returned, Hs, bind_Returned, alignToSchema_input_df,
    bind_Returned.
Qed.

Lemma on_predict_eq :
  on_predict dt m i
  = match result (predict_body dt m i) with
    | Returned _ => predict_body dt m i
    | Raised e =>
        if isinstance_Exception e
        then (trace (predict_body dt m i) ++ [error (prediction_error e)],
              Returned tt)
        else predict_body dt m i
    end.
Proof. apply try_except_Exception_eq. Qed.

(** The handler adds at most its error line to what the body did. *)
Lemma trace_on_predict :
  trace (on_predict dt m i) = trace (predict_body dt m i)
  \/ exists e, trace (on_predict dt m i)
               = trace (predict_body dt m i) ++ [error (prediction_error e)].
Proof.
  rewrite on_predict_eq.
  destruct (result (predict_body dt m i)) as [u|e]; [now left|].
  destruct (isinstance_Exception e); [right; now exists e | now left].
Qed.

Lemma called_predict_in_shape X s Y :
  invocation_shape (proba_arith m) X s ->
  In (called_predict Y) (trace s) -> Y = X.
Proof.
  intros Hs. destruct Hs; unfold decision; simpl;
    try destruct (l =? 1); intuition congruence.
Qed.

Lemma shape_calls_predict X s :
  invocation_shape (proba_arith m) X s -> In (called_predict X) (trace s).
Proof. intros Hs. destruct Hs; simpl; auto. Qed.

Lemma called_predict_in_on_predict Y :
  In (called_predict Y) (trace (on_predict dt m i)) <->
  In (called_predict Y) (trace (predict_body dt m i)).
Proof.
  destruct trace_on_predict as [E|[e E]]; rewrite E; [tauto|].
  rewrite in_app_iff. simpl. intuition discriminate.
Qed.

(** Where an exception that ends the body of the [try] comes from: the
    script's own steps raise only instances of [Exception]. *)
Lemma predict_body_raises (e : exn) :
  result (predict_body dt m i) = Raised e ->
  isinstance_Exception e = true
  \/ (exists X, predict m X = Raised e)
  \/ (exists proba_of X, predict_proba m = Some proba_of /\ proba_of X = Raised e).
Proof.
  destruct (debt_to_income_ratio i) as [ratio|e1] eqn:Hr.
  2:{ rewrite (predict_body_overflow e1 Hr). cbn. intros H. injection H as <-.
      left. unfold debt_to_income_ratio in Hr.
      destruct (truediv_nonzero (loan_amnt i) (Py.max (person_income i) 1))
        as [[q Hq]|[e2 [He2 Hc]]]; [rewrite max_eq; lia | congruence |].
      rewrite Hr in He2. injection He2 as <-.
      unfold isinstance_Exception. now rewrite Hc. }
  destruct (feature_names_in_ m) as [cols|] eqn:Hs.
  2:{ rewrite (predict_body_without_schema ratio Hr Hs). cbn.
      intros H. injection H as <-. left.
      apply feature_names_in_error_class. }
  rewrite (predict_body_aligned ratio cols Hr Hs). intros H.
  destruct (predict_and_show_raises m _ e H) as [H1|[H1|[f [H1 H2]]]];
    [now left | right; left; eauto | right; right; eauto].
Qed.

Lemma on_predict_without_proba ratio cols labels l :
  debt_to_income_ratio i = Returned ratio ->
  feature_names_in_ m = Some cols ->
  predict m (reindexed (input_df dt i ratio) cols) = Returned labels ->
  item labels 0 = Returned l ->
  predict_proba m = None ->
  on_predict dt m i
  = ([called_predict (reindexed (input_df dt i ratio) cols); decision l],
     Returned tt).
Proof.
  intros Hr Hs Hl Hi Hp.
  rewrite on_predict_eq, (predict_body_aligned ratio cols Hr Hs).
  now rewrite (predict_and_show_without_proba m _ labels l Hl Hi Hp).
Qed.

Lemma on_predict_with_proba ratio cols labels l proba_of rows row p :
  debt_to_income_ratio i = Returned ratio ->
  feature_names_in_ m = Some cols ->
  predict m (reindexed (input_df dt i ratio) cols) = Returned labels ->
  item labels 0 = Returned l ->
  predict_proba m = Some proba_of ->
  proba_of (reindexed (input_df dt i ratio) cols) = Returned rows ->
  item rows 0 = Returned row ->
  item row 1 = Returned p ->
  on_predict dt m i
  = ([called_predict (reindexed (input_df dt i ratio) cols);
      called_predict_proba (reindexed (input_df dt i ratio) cols);
      decision l; info (probability_line (proba_arith m) p)], Returned tt).
Proof.
  intros Hr Hs Hl Hi Hp Hrows Hrow Hpp.
  rewrite on_predict_eq, (predict_body_aligned ratio cols Hr Hs).
  now rewrite (predict_and_show_with_proba m _ labels l proba_of rows row p
                 Hl Hi Hp Hrows Hrow Hpp).
Qed.

Lemma on_predict_calls_predict ratio cols :
  debt_to_income_ratio i = Returned ratio ->
  feature_names_in_ m = Some cols ->
  In (called_predict (reindexed (input_df dt i ratio) cols))
     (trace (on_predict dt m i)).
Proof.
  intros Hr Hs. apply called_predict_in_on_predict.
  rewrite (predict_body_aligned ratio cols Hr Hs).
  apply shape_calls_predict, predict_and_show_shape.
Qed.

End Handler.

(* ================================================================== *)
(** * The advisory warnings and the script as a whole *)
(* ================================================================== *)

Section Whole.

Lemma warn_unless_eq (ok : bool) (text : string) :
  warn_unless ok text = (if ok then [] else [warning text], Returned tt).
Proof. now destruct ok. Qed.

Lemma advisory_warnings_eq (i : Inputs) :
  advisory_warnings i
  = ((if age_in_range i then [] else [warning age_warning])
     ++ (if income_in_range i then [] else [warning income_warning])
     ++ (if emp_length_in_range i then [] else [warning emp_length_warning])
     ++ (if loan_amnt_in_range i then [] else [warning loan_amnt_warning])
     ++ (if int_rate_in_range i then [] else [warning int_rate_warning]),
     Returned tt).
Proof.
  unfold advisory_warnings. rewrite !warn_unless_eq.
  unfold bind. reflexivity.
Qed.

Lemma load_model_absent (env : Env) :
  path_exists env (MODEL_PATH env) = false ->
  load_model env = ([], Raised (model_not_found (MODEL_PATH env))).
Proof. intros H. unfold load_model. now rewrite H. Qed.

Lemma load_model_present (env : Env) :
  path_exists env (MODEL_PATH env) = true ->
  load_model env = lift (joblib_load env (MODEL_PATH env)).
Proof. intros H. unfold load_model. now rewrite H. Qed.

(** A run that got its classifier draws the form, then the warnings, then
    the button, and runs the handler when the button was pressed. *)
Lemma script_loaded (env : Env) (m : Model) :
  path_exists env (MODEL_PATH env) = true ->
  joblib_load env (MODEL_PATH env) = Returned m ->
  script env
  = (form_events env
     ++ trace (advisory_warnings (inputs env))
     ++ button "Predict"
     :: (if predict_pressed env
         then trace (on_predict (dummies env) m (inputs env)) else []),
     if predict_pressed env
     then result (on_predict (dummies env) m (inputs env)) else Returned tt).
Proof.
  intros Hp Hl. unfold script, form_events.
  rewrite (load_model_present env Hp), Hl, bind_Returned.
  change page_header with (trace page_header, @Returned unit tt).
  rewrite bind_pair.
  change (collector env) with (trace (collector env), Returned (inputs env)).
  rewrite bind_pair.
  rewrite advisory_warnings_eq, !bind_pair, !bind_emit.
  unfold trace, result. cbn [fst snd]. rewrite <- !app_assoc.
  destruct (predict_pressed env); reflexivity.
Qed.

Lemma in_unless (ok : bool) (ev x : event) :
  In x (if ok then [] else [ev]) <-> ok = false /\ ev = x.
Proof. destruct ok; simpl; intuition discriminate. Qed.

Lemma in_advisory_warnings (i : Inputs) (x : event) :
  In x (trace (advisory_warnings i)) <->
  (age_in_range i = false /\ warning age_warning = x)
  \/ (income_in_range i = false /\ warning income_warning = x)
  \/ (emp_length_in_range i = false /\ warning emp_length_warning = x)
  \/ (loan_amnt_in_range i = false /\ warning loan_amnt_warning = x)
  \/ (int_rate_in_range i = false /\ warning int_rate_warning = x).
Proof.
  rewrite advisory_warnings_eq. unfold trace. cbn [fst].
  rewrite !in_app_iff, !in_unless. tauto.
Qed.

Ltac other_warning :=
  match goal with
  | H : _ /\ warning _ = warning _ |- _ =>
      destruct H as [_ H];
      unfold age_warning, income_warning, emp_length_warning,
        loan_amnt_warning, int_rate_warning in H;
      discriminate H
  end.

Lemma age_warning_shown (i : Inputs) :
  In (warning age_warning) (trace (advisory_warnings i)) <-> age_in_range i = false.
Proof.
  rewrite in_advisory_warnings. split; [|now left].
  intros [[H _]|[H|[H|[H|H]]]]; [exact H | other_warning ..].
Qed.

Lemma income_warning_shown (i : Inputs) :
  In (warning income_warning) (trace (advisory_warnings i))
  <-> income_in_range i = false.
Proof.
  rewrite in_advisory_warnings. split; [|now right; left].
  intros [H|[[H _]|[H|[H|H]]]]; [|exact H|..]; other_warning.
Qed.

Lemma emp_length_warning_shown (i : Inputs) :
  In (warning emp_length_warning) (trace (advisory_warnings i))
  <-> emp_length_in_range i = false.
Proof.
  rewrite in_advisory_warnings. split; [|now right; right; left].
  intros [H|[H|[[H _]|[H|H]]]]; [| |exact H|..]; other_warning.
Qed.

Lemma loan_amnt_warning_shown (i : Inputs) :
  In (warning loan_amnt_warning) (trace (advisory_warnings i))
  <-> loan_amnt_in_range i = false.
Proof.
  rewrite in_advisory_warnings. split; [|now right; right; right; left].
  intros [H|[H|[H|[[H _]|H]]]]; [| | |exact H|]; other_warning.
Qed.

Lemma int_rate_warning_shown (i : Inputs) :
  In (warning int_rate_warning) (trace (advisory_warnings i))
  <-> int_rate_in_range i = false.
Proof.
  rewrite in_advisory_warnings. split; [|now right; right; right; right].
  intros [H|[H|[H|[H|[H _]]]]]; [| | | |exact H]; other_warning.
Qed.

Lemma advisory_warnings_among_five (i : Inputs) (ev : event) :
  In ev (trace (advisory_warnings i)) -> In ev five_warnings.
Proof.
  rewrite in_advisory_warnings. unfold five_warnings.
  intros [[_ <-]|[[_ <-]|[[_ <-]|[[_ <-]|[_ <-]]]]]; simpl; auto 6.
Qed.

Lemma float_of_int_5 : float_of_int 5 = 5%float.
Proof. vm_compute. reflexivity. Qed.

Lemma float_of_int_25 : float_of_int 25 = 25%float.
Proof. vm_compute. reflexivity. Qed.

End Whole.

(* ================================================================== *)
(** * The properties *)
(* ================================================================== *)

(** C1.  Whenever the handler calls [model.predict], the frame it passes has
    exactly the labels of [model.feature_names_in_], in that order, for
    every applicant and every three selected categorical values; and it
    does call [predict] with that frame whenever the model has a schema and
    line 68 gave a ratio.  Under each schema label the frame holds what the
    assembled frame held there, and 0 where the assembled frame had no such
    column; an assembled column whose label is not in the schema is gone. *)
Theorem predict_receives_schema_columns (dt : dummy_dtype) (m : Model) (i : Inputs) :
  (forall X, In (called_predict X) (trace (on_predict dt m i)) ->
     exists cols ratio,
       feature_names_in_ m = Some cols
       /\ debt_to_income_ratio i = Returned ratio
       /\ alignToSchema (input_df dt i ratio) cols = Returned X
       /\ columns X = cols)
  /\ (forall cols ratio,
        feature_names_in_ m = Some cols ->
        debt_to_income_ratio i = Returned ratio ->
        exists X,
          alignToSchema (input_df dt i ratio) cols = Returned X
          /\ In (called_predict X) (trace (on_predict dt m i))
          /\ columns X = cols
          /\ (forall c, In c cols -> ~ In c (columns (input_df dt i ratio)) ->
                cell_at X c = Some (Int 0))
          /\ (forall c v, In c cols -> cell_at (input_df dt i ratio) c = Some v ->
                cell_at X c = Some v)
          /\ (forall c, In c (columns (input_df dt i ratio)) -> ~ In c cols ->
                ~ In c (columns X))).
Proof.
  split.
  - intros X HX. apply called_predict_in_on_predict in HX.
    destruct (debt_to_income_ratio i) as [ratio|e] eqn:Hr.
    2:{ rewrite (predict_body_overflow dt m i e Hr) in HX. destruct HX. }
    destruct (feature_names_in_ m) as [cols|] eqn:Hs.
    2:{ rewrite (predict_body_without_schema dt m i ratio Hr Hs) in HX.
        destruct HX. }
    rewrite (predict_body_aligned dt m i ratio cols Hr Hs) in HX.
    apply (called_predict_in_shape m _ _ _ (predict_and_show_shape m _)) in HX.
    exists cols, ratio. subst X.
    repeat split; [apply alignToSchema_input_df | apply columns_reindexed].
  - intros cols ratio Hs Hr.
    exists (reindexed (input_df dt i ratio) cols).
    split; [apply alignToSchema_input_df|].
    split.
    { apply called_predict_in_on_predict.
      rewrite (predict_body_aligned dt m i ratio cols Hr Hs).
      apply (shape_calls_predict m), predict_and_show_shape. }
    split; [apply columns_reindexed|].
    split; [|split].
    + intros c Hc Hnot. rewrite cell_at_reindexed by assumption.
      unfold aligned_value.
      now rewrite cell_at_absent by (now apply contains_false_not_In).
    + intros c v Hc Hv. rewrite cell_at_reindexed by assumption.
      unfold aligned_value. now rewrite Hv.
    + intros c _ Hnot. now rewrite columns_reindexed.
Qed.

Lemma predict_receives_schema_columns_witness :
  exists X,
    alignToSchema (input_df dummy_bool Examples.scenario_1 0.2%float)
                  Examples.schema = Returned X
    /\ In (called_predict X)
          (trace (on_predict dummy_bool Examples.classifier Examples.scenario_1))
    /\ columns X = Examples.schema.
Proof.
  assert (Hr : debt_to_income_ratio Examples.scenario_1 = Returned 0.2%float)
    by (vm_compute; reflexivity).
  destruct (proj2 (predict_receives_schema_columns
                     dummy_bool Examples.classifier Examples.scenario_1)
                  Examples.schema 0.2%float eq_refl Hr)
    as [X [Ha [Hin [Hcols _]]]].
  exists X. exact (conj Ha (conj Hin Hcols)).
Defined.

(** C2.  The Default on File selectbox offers exactly "Y" and "N"; line 67
    turns "Y" into 1 and "N" into 0, and a value the selectbox can hand over
    is one of the two. *)
Theorem default_on_file_binarization (i : Inputs) :
  select_options w_cb_person_default_on_file = ["Y"; "N"]%string
  /\ (cb_person_default_on_file i = "Y"%string ->
      cb_person_default_on_file_bin i = 1)
  /\ (cb_person_default_on_file i = "N"%string ->
      cb_person_default_on_file_bin i = 0)
  /\ (select_admits w_cb_person_default_on_file (cb_person_default_on_file i) = true ->
      (cb_person_default_on_file i = "Y"%string
       /\ cb_person_default_on_file_bin i = 1)
      \/ (cb_person_default_on_file i = "N"%string
          /\ cb_person_default_on_file_bin i = 0)).
Proof.
  unfold cb_person_default_on_file_bin, select_admits. simpl.
  split; [reflexivity|].
  split; [intros ->; reflexivity|].
  split; [intros ->; reflexivity|].
  intros H. rewrite orb_false_r in H. apply orb_true_iff in H.
  destruct H as [H|H]; apply String.eqb_eq in H; rewrite H; simpl; auto.
Qed.

Lemma default_on_file_binarization_witness :
  cb_person_default_on_file_bin Examples.no_income = 1
  /\ cb_person_default_on_file_bin Examples.scenario_1 = 0
  /\ ((cb_person_default_on_file Examples.scenario_1 = "Y"%string
       /\ cb_person_default_on_file_bin Examples.scenario_1 = 1)
      \/ (cb_person_default_on_file Examples.scenario_1 = "N"%string
          /\ cb_person_default_on_file_bin Examples.scenario_1 = 0)).
Proof.
  split; [|split].
  - apply (proj1 (proj2 (default_on_file_binarization Examples.no_income))).
    reflexivity.
  - apply (proj1 (proj2 (proj2 (default_on_file_binarization Examples.scenario_1)))).
    reflexivity.
  - apply (proj2 (proj2 (proj2 (default_on_file_binarization Examples.scenario_1)))).
    reflexivity.
Defined.

(** C3.  Line 68 divides by [max(person_income, 1)], which is the larger of
    the income and 1 and so never zero: the ratio is
    [loan_amnt / max(income, 1)] for every loan amount and income, the
    division never raises [ZeroDivisionError] (the one exception it can
    raise is the [OverflowError] of a quotient beyond the floats, and for
    a loan amount below 2^1023 in magnitude it raises none), and for
    income 0 it is [loan_amnt / 1]. *)
Theorem debt_to_income_ratio_guarded (i : Inputs) :
  debt_to_income_ratio i = truediv (loan_amnt i) (Z.max (person_income i) 1)
  /\ Z.max (person_income i) 1 <> 0
  /\ ((exists q, debt_to_income_ratio i = Returned q)
      \/ (exists e, debt_to_income_ratio i = Raised e
                    /\ exn_class_of e = OverflowError))
  /\ (Z.abs (loan_amnt i) < 2 ^ 1023 ->
      exists q, debt_to_income_ratio i = Returned q)
  /\ (person_income i = 0 -> debt_to_income_ratio i = truediv (loan_amnt i) 1).
Proof.
  unfold debt_to_income_ratio. rewrite max_eq.
  split; [reflexivity|].
  split; [lia|].
  split; [apply truediv_nonzero; lia|].
  split; [intros Hamt; apply truediv_returns; [lia | exact Hamt]|].
  intros ->. reflexivity.
Qed.

Lemma debt_to_income_ratio_guarded_witness :
  debt_to_income_ratio Examples.no_income = truediv 1000 1
  /\ exists q, debt_to_income_ratio Examples.no_income = Returned q.
Proof.
  pose (T := debt_to_income_ratio_guarded Examples.no_income).
  split.
  - exact (proj2 (proj2 (proj2 (proj2 T))) eq_refl).
  - apply (proj1 (proj2 (proj2 (proj2 T)))). reflexivity.
Defined.




(** C5.  For a frame [X] that alignment gave and a label [l] that
    [predict] gave: when the model has no [predict_proba],
    [predictProbability] returns [None] without raising, and the handler
    draws the decision line and nothing else; when it has one, the
    handler draws the decision line and then the line of line 121, which
    shows entry 1 of row 0 of what [predict_proba] returned, times 100
    and to two decimals, between "Approval Probability: " and "%"; for a
    probabilistic classifier that entry is between 0 and 1.  The decision
    line is the success message for the label 1 and the error message
    of line 118 for any other. *)
Theorem probability_is_optional
        (dt : dummy_dtype) (m : Model) (i : Inputs) (ratio : float)
        (cols : list string) (X : DataFrame) (labels : list Z) (l : Z) :
  debt_to_income_ratio i = Returned ratio ->
  feature_names_in_ m = Some cols ->
  alignToSchema (input_df dt i ratio) cols = Returned X ->
  predict m X = Returned labels ->
  item labels 0 = Returned l ->
  decision l = (if l =? 1 then success "✅ Loan Approved!" else error "❌ Loan Not Approved!")
  /\ (predict_proba m = None ->
      predictProbability m X = ([], Returned None)
      /\ on_predict dt m i = ([called_predict X; decision l], Returned tt)
      /\ (forall text, ~ In (info text) (trace (on_predict dt m i))))
  /\ (forall proba_of rows row p,
        predict_proba m = Some proba_of ->
        proba_of X = Returned rows ->
        item rows 0 = Returned row ->
        item row 1 = Returned p ->
        predictProbability m X = ([called_predict_proba X], Returned (Some p))
        /\ on_predict dt m i
           = ([called_predict X; called_predict_proba X; decision l;
               info ("Approval Probability: "
                     ++ format_2f (times_int (proba_arith m) p 100)
                     ++ "%")%string], Returned tt)
        /\ (probabilistic m -> is_probability p = true)).
Proof.
  intros Hr Hs Ha Hl Hi.
  rewrite alignToSchema_input_df in Ha. injection Ha as <-.
  split; [reflexivity|]. split.
  - intros Hp. split; [now apply predictProbability_absent|].
    assert (E : on_predict dt m i
                = ([called_predict (reindexed (input_df dt i ratio) cols);
                    decision l], Returned tt)).
    { rewrite on_predict_eq, (predict_body_aligned dt m i ratio cols Hr Hs).
      now rewrite (predict_and_show_without_proba m _ labels l Hl Hi Hp). }
    split; [exact E|].
    intros text. rewrite E. unfold decision. simpl.
    destruct (l =? 1); intuition discriminate.
  - intros proba_of rows row p Hp Hrows Hrow Hpp.
    split; [now apply predictProbability_present with proba_of rows row|].
    split.
    + rewrite on_predict_eq, (predict_body_aligned dt m i ratio cols Hr Hs).
      now rewrite (predict_and_show_with_proba m _ labels l proba_of rows row p
                     Hl Hi Hp Hrows Hrow Hpp).
    + intros Hm. specialize (Hm proba_of _ rows Hp Hrows).
      apply item_In in Hrow, Hpp.
      rewrite Forall_forall in Hm. specialize (Hm row Hrow).
      rewrite Forall_forall in Hm. now apply Hm.
Qed.

Lemma probability_is_optional_witness :
  let X := reindexed (input_df dummy_bool Examples.scenario_1 0.2%float)
                     Examples.schema in
  on_predict dummy_bool Examples.classifier_without_proba Examples.scenario_1
  = ([called_predict X; success "✅ Loan Approved!"], Returned tt)
  /\ on_predict dummy_bool Examples.classifier Examples.scenario_1
     = ([called_predict X; called_predict_proba X; success "✅ Loan Approved!";
         info "Approval Probability: 87.50%"], Returned tt)
  /\ is_probability 0.875%float = true.
Proof.
  intros X.
  assert (Hr : debt_to_income_ratio Examples.scenario_1 = Returned 0.2%float)
    by (vm_compute; reflexivity).
  assert (Ha : alignToSchema (input_df dummy_bool Examples.scenario_1 0.2%float)
                             Examples.schema = Returned X)
    by apply alignToSchema_input_df.
  assert (Hl : Examples.approves_renters X = Returned [1])
    by (vm_compute; reflexivity).
  assert (Hprob : probabilistic Examples.classifier).
  { intros proba_of Y rows Hp Hrows. simpl in Hp. injection Hp as <-.
    injection Hrows as <-. repeat constructor. }
  assert (Htext : ("Approval Probability: "
                   ++ format_2f (times_int (proba_arith Examples.classifier)
                                           0.875%float 100)
                   ++ "%")%string = "Approval Probability: 87.50%"%string)
    by (vm_compute; reflexivity).
  pose (T0 := probability_is_optional dummy_bool Examples.classifier_without_proba
                Examples.scenario_1 0.2%float Examples.schema X [1] 1
                Hr eq_refl Ha Hl eq_refl).
  pose (T1 := probability_is_optional dummy_bool Examples.classifier
                Examples.scenario_1 0.2%float Examples.schema X [1] 1
                Hr eq_refl Ha Hl eq_refl).
  pose (T1p := proj2 (proj2 T1) _ [[0.125%float; 0.875%float]]
                 [0.125%float; 0.875%float] 0.875%float
                 eq_refl eq_refl eq_refl eq_refl).
  split; [|split].
  - exact (proj1 (proj2 (proj1 (proj2 T0) eq_refl))).
  - exact (eq_ind _
             (fun t =>
                on_predict dummy_bool Examples.classifier Examples.scenario_1
                = ([called_predict X; called_predict_proba X;
                    success "✅ Loan Approved!"; info t], Returned tt))
             (proj1 (proj2 T1p)) _ Htext).
  - exact (proj2 (proj2 T1p) Hprob).
Defined.

(** C6, as the code has it.  An exception that ends the body of the [try]
    and is an instance of [Exception] is caught: the handler adds one
    error line, made of the fixed prefix and [str(e)], to what the body had
    drawn, and the handler ends normally.  The script's own steps raise
    only such exceptions, so with a classifier whose methods raise only
    such exceptions the handler always ends normally, and then so does the
    whole run of the script. *)
Theorem exceptions_are_caught_and_shown
        (dt : dummy_dtype) (m : Model) (i : Inputs) :
  (forall e,
     result (predict_body dt m i) = Raised e ->
     isinstance_Exception e = true ->
     on_predict dt m i
     = (trace (predict_body dt m i) ++ [error (prediction_error e)],
        Returned tt)
     /\ exists prefix, prediction_error e = (prefix ++ exn_str e)%string)
  /\ (raises_only_Exception m -> result (on_predict dt m i) = Returned tt)
  /\ (forall env,
        path_exists env (MODEL_PATH env) = true ->
        joblib_load env (MODEL_PATH env) = Returned m ->
        dummies env = dt ->
        inputs env = i ->
        result (on_predict dt m i) = Returned tt ->
        result (script env) = Returned tt).
Proof.
  split; [|split].
  - intros e He Hinst. rewrite on_predict_eq, He, Hinst.
    split; [reflexivity|]. eexists. reflexivity.
  - intros [Hpredict Hproba]. rewrite on_predict_eq.
    destruct (result (predict_body dt m i)) as [[]|e] eqn:He.
    + exact He.
    + assert (Hinst : isinstance_Exception e = true).
      { destruct (predict_body_raises dt m i e He)
          as [H|[[X H]|[proba_of [X [H1 H2]]]]]; eauto. }
      now rewrite Hinst.
  - intros env Hp Hl <- <- Hres.
    rewrite (script_loaded env m Hp Hl). unfold result at 1. cbn [snd].
    destruct (predict_pressed env); [exact Hres | reflexivity].
Qed.

Lemma exceptions_are_caught_and_shown_witness :
  on_predict dummy_bool Examples.classifier_failing Examples.scenario_1
  = (trace (predict_body dummy_bool Examples.classifier_failing
                         Examples.scenario_1)
     ++ [error (prediction_error
                  (mk_exn (OtherException "XGBoostError")
                          "feature_names mismatch"))],
     Returned tt)
  /\ result (script (Examples.deployed Examples.classifier_failing
                                       Examples.scenario_1 true))
     = Returned tt.
Proof.
  assert (Hbody : result (predict_body dummy_bool Examples.classifier_failing
                                        Examples.scenario_1)
                  = Raised (mk_exn (OtherException "XGBoostError")
                                   "feature_names mismatch"))
    by (vm_compute; reflexivity).
  assert (Honly : raises_only_Exception Examples.classifier_failing).
  { split.
    - intros X e H. simpl in H. injection H as <-. reflexivity.
    - intros proba_of X e H. discriminate H. }
  split.
  - exact (proj1 (proj1 (exceptions_are_caught_and_shown
                           dummy_bool Examples.classifier_failing
                           Examples.scenario_1) _ Hbody eq_refl)).
  - pose (env := Examples.deployed Examples.classifier_failing
                                  Examples.scenario_1 true).
    assert (Hpath : path_exists env (MODEL_PATH env) = true)
      by (vm_compute; reflexivity).
    exact (proj2 (proj2 (exceptions_are_caught_and_shown
                           dummy_bool Examples.classifier_failing
                           Examples.scenario_1))
             env Hpath eq_refl eq_refl eq_refl
             (proj1 (proj2 (exceptions_are_caught_and_shown
                              dummy_bool Examples.classifier_failing
                              Examples.scenario_1)) Honly)).
Defined.

(** C6, as the claim has it, fails: an exception outside [Exception], here
    the [SystemExit] of a classifier whose [predict] ends the
    interpreter, passes the handler of line 123; no error line is drawn
    and the exception ends the run of the script. *)
Lemma exit_signal_passes_the_handler :
  let e := mk_exn SystemExit "1" in
  result (predict_body dummy_bool Examples.classifier_exiting Examples.scenario_1)
  = Raised e
  /\ result (on_predict dummy_bool Examples.classifier_exiting Examples.scenario_1)
     = Raised e
  /\ (forall text,
        ~ In (error text)
             (trace (on_predict dummy_bool Examples.classifier_exiting
                                Examples.scenario_1)))
  /\ result (script (Examples.deployed Examples.classifier_exiting
                                       Examples.scenario_1 true))
     = Raised e.
Proof.
  intros e.
  assert (Ht : elements (trace (on_predict dummy_bool Examples.classifier_exiting
                                           Examples.scenario_1)) = [])
    by (vm_compute; reflexivity).
  split; [vm_compute; reflexivity|].
  split; [vm_compute; reflexivity|].
  split; [|vm_compute; reflexivity].
  exact (nothing_drawn_no_error _ Ht).
Qed.

(** C7.  When the model file is not there the run ends at line 12 with a
    [FileNotFoundError] that names the path, before any Streamlit call;
    when it is there the run goes on to [joblib.load], and with the
    classifier loaded it draws the page header, the form, the warnings and
    the Predict button (an exception of [joblib.load] itself ends the
    run like the missing file does). *)
Theorem startup_needs_the_model_file (env : Env) :
  (path_exists env (MODEL_PATH env) = false ->
     script env = ([], Raised (model_not_found (MODEL_PATH env)))
     /\ exn_class_of (model_not_found (MODEL_PATH env)) = FileNotFoundError
     /\ exn_str (model_not_found (MODEL_PATH env))
        = ("❌ Model file not found at: " ++ MODEL_PATH env)%string)
  /\ (path_exists env (MODEL_PATH env) = true ->
        load_model env = lift (joblib_load env (MODEL_PATH env))
        /\ (forall e, joblib_load env (MODEL_PATH env) = Raised e ->
              script env = ([], Raised e))
        /\ (forall m, joblib_load env (MODEL_PATH env) = Returned m ->
              exists rest,
                trace (script env)
                = set_page_config "💳 Loan Approval Predictor" "💳" "wide"
                  :: title "💳 Loan Approval Prediction"
                  :: write "Fill in the details below to predict whether the loan will be approved."
                  :: rest
                /\ trace (script env)
                   = form_events env
                     ++ trace (advisory_warnings (inputs env))
                     ++ button "Predict"
                     :: (if predict_pressed env
                         then trace (on_predict (dummies env) m (inputs env))
                         else []))).
Proof.
  split.
  - intros Hp. unfold script. rewrite (load_model_absent env Hp).
    repeat split.
  - intros Hp. split; [now apply load_model_present|]. split.
    + intros e He. unfold script.
      now rewrite (load_model_present env Hp), He.
    + intros m Hl. rewrite (script_loaded env m Hp Hl).
      eexists. split; reflexivity.
Qed.

Lemma startup_needs_the_model_file_witness :
  script (Examples.without_artifact Examples.scenario_1)
  = ([], Raised (model_not_found "/srv/loan/Model/best_xgb.pkl"))
  /\ load_model (Examples.deployed Examples.classifier Examples.scenario_1 false)
     = lift (Returned Examples.classifier).
Proof.
  split.
  - exact (proj1 (proj1 (startup_needs_the_model_file
                           (Examples.without_artifact Examples.scenario_1))
                        eq_refl)).
  - pose (env := Examples.deployed Examples.classifier Examples.scenario_1 false).
    assert (Hpath : path_exists env (MODEL_PATH env) = true)
      by (vm_compute; reflexivity).
    exact (proj1 (proj2 (startup_needs_the_model_file env) Hpath)).
Defined.

(** C8.  Lines 46-59 make five checks and draw nothing but their five
    warnings.  Each warning is on the page exactly when its value is
    outside its range: age in [20, 75], income at least 10000, employment
    length in [0, 50], loan amount at least 5000, interest rate in [5, 25].
    The block never raises; the values go into the assembled frame as they
    were collected, in range or not, and the handler runs on them whatever
    was warned about. *)
Theorem advisory_warnings_only_advise (i : Inputs) :
  result (advisory_warnings i) = Returned tt
  /\ (forall ev, In ev (trace (advisory_warnings i)) -> In ev five_warnings)
  /\ (In (warning age_warning) (trace (advisory_warnings i))
      <-> ~ (20 <= person_age i <= 75))
  /\ (In (warning income_warning) (trace (advisory_warnings i))
      <-> ~ (person_income i >= 10000))
  /\ (In (warning emp_length_warning) (trace (advisory_warnings i))
      <-> ~ (0 <= person_emp_length i <= 50))
  /\ (In (warning loan_amnt_warning) (trace (advisory_warnings i))
      <-> ~ (loan_amnt i >= 5000))
  /\ (In (warning int_rate_warning) (trace (advisory_warnings i))
      <-> ~ (PrimFloat.leb 5 (loan_int_rate i) = true
             /\ PrimFloat.leb (loan_int_rate i) 25 = true))
  /\ (forall dt ratio,
        cell_at (input_df dt i ratio) "person_age" = Some (Int (person_age i))
        /\ cell_at (input_df dt i ratio) "person_income"
           = Some (Int (person_income i))
        /\ cell_at (input_df dt i ratio) "person_emp_length"
           = Some (Int (person_emp_length i))
        /\ cell_at (input_df dt i ratio) "loan_amnt" = Some (Int (loan_amnt i))
        /\ cell_at (input_df dt i ratio) "loan_int_rate"
           = Some (Float (loan_int_rate i)))
  /\ (forall env m,
        inputs env = i ->
        path_exists env (MODEL_PATH env) = true ->
        joblib_load env (MODEL_PATH env) = Returned m ->
        predict_pressed env = true ->
        trace (script env)
        = form_events env ++ trace (advisory_warnings i)
          ++ button "Predict" :: trace (on_predict (dummies env) m i)).
Proof.
  assert (Hage : age_in_range i = false <-> ~ (20 <= person_age i <= 75)).
  { unfold age_in_range. rewrite andb_false_iff, !Z.leb_gt. lia. }
  assert (Hinc : income_in_range i = false <-> ~ (person_income i >= 10000)).
  { unfold income_in_range. rewrite Z.geb_leb, Z.leb_gt. lia. }
  assert (Hemp : emp_length_in_range i = false
                 <-> ~ (0 <= person_emp_length i <= 50)).
  { unfold emp_length_in_range. rewrite andb_false_iff, !Z.leb_gt. lia. }
  assert (Hamt : loan_amnt_in_range i = false <-> ~ (loan_amnt i >= 5000)).
  { unfold loan_amnt_in_range. rewrite Z.geb_leb, Z.leb_gt. lia. }
  assert (Hrate : int_rate_in_range i = false
                  <-> ~ (PrimFloat.leb 5 (loan_int_rate i) = true
                         /\ PrimFloat.leb (loan_int_rate i) 25 = true)).
  { unfold int_rate_in_range. rewrite float_of_int_5, float_of_int_25.
    rewrite <- andb_true_iff.
    destruct (PrimFloat.leb 5 (loan_int_rate i)
              && PrimFloat.leb (loan_int_rate i) 25); intuition congruence. }
  split; [now rewrite advisory_warnings_eq|].
  split; [apply advisory_warnings_among_five|].
  split; [now rewrite age_warning_shown|].
  split; [now rewrite income_warning_shown|].
  split; [now rewrite emp_length_warning_shown|].
  split; [now rewrite loan_amnt_warning_shown|].
  split; [now rewrite int_rate_warning_shown|].
  split.
  { intros dt ratio. repeat split. }
  intros env m <- Hp Hl Hb.
  rewrite (script_loaded env m Hp Hl), Hb. reflexivity.
Qed.

Lemma advisory_warnings_only_advise_witness :
  In (warning age_warning) (trace (advisory_warnings Examples.no_income))
  /\ In (warning age_warning) five_warnings
  /\ trace (script (Examples.deployed Examples.classifier Examples.no_income true))
     = form_events (Examples.deployed Examples.classifier Examples.no_income true)
       ++ trace (advisory_warnings Examples.no_income)
       ++ button "Predict"
       :: trace (on_predict dummy_bool Examples.classifier Examples.no_income).
Proof.
  pose (T := advisory_warnings_only_advise Examples.no_income).
  assert (Hage : In (warning age_warning)
                    (trace (advisory_warnings Examples.no_income))).
  { apply (proj1 (proj2 (proj2 T))). simpl. lia. }
  split; [exact Hage|].
  split; [exact (proj1 (proj2 T) _ Hage)|].
  pose (env := Examples.deployed Examples.classifier Examples.no_income true).
  assert (Hpath : path_exists env (MODEL_PATH env) = true)
    by (vm_compute; reflexivity).
  exact (proj2 (proj2 (proj2 (proj2 (proj2 (proj2 (proj2 (proj2 T)))))))
           env Examples.classifier eq_refl Hpath eq_refl eq_refl).
Defined.

(** C10.  The income widget does not go below 10000 and the loan amount
    widget does not go below 5000, so for values the widgets can hand over
    the conditions of lines 49 and 55 hold and neither of the two warnings
    is drawn. *)
Theorem income_and_amount_warnings_unreachable (i : Inputs) :
  collectable i = true ->
  int_min_value w_person_income = Some 10000
  /\ int_min_value w_loan_amnt = Some 5000
  /\ person_income i >= 10000
  /\ loan_amnt i >= 5000
  /\ ~ In (warning income_warning) (trace (advisory_warnings i))
  /\ ~ In (warning loan_amnt_warning) (trace (advisory_warnings i)).
Proof.
  unfold collectable. rewrite !andb_true_iff.
  intros [[[[[[[[[[_ Hinc] _] _] _] _] _] _] Hamt] _] _].
  unfold int_admits in Hinc, Hamt. simpl in Hinc, Hamt.
  rewrite andb_true_r in Hinc, Hamt. apply Z.leb_le in Hinc, Hamt.
  split; [reflexivity|]. split; [reflexivity|].
  split; [lia|]. split; [lia|].
  rewrite income_warning_shown, loan_amnt_warning_shown.
  unfold income_in_range, loan_amnt_in_range. rewrite !Z.geb_leb.
  apply Z.leb_le in Hinc, Hamt. rewrite Hinc, Hamt.
  split; discriminate.
Qed.

Lemma income_and_amount_warnings_unreachable_witness :
  person_income Examples.scenario_1 >= 10000
  /\ ~ In (warning income_warning)
          (trace (advisory_warnings Examples.scenario_1)).
Proof.
  assert (Hc : collectable Examples.scenario_1 = true)
    by (vm_compute; reflexivity).
  pose (T := income_and_amount_warnings_unreachable Examples.scenario_1 Hc).
  exact (conj (proj1 (proj2 (proj2 T)))
              (proj1 (proj2 (proj2 (proj2 (proj2 T)))))).
Defined.

(** C9.  The applicant of scenario 1 (30 years, income 50000, 5 years
    employed, RENT, no default, 10 years of credit history, EDUCATION,
    grade B, 10000 at 12.5 %, 0.2 of income), with any classifier that has a
    schema: the binarized default flag is 0 and the ratio is 0.2; the
    frame passed to [predict] has the schema's labels and holds 0.2 under
    [debt_to_income_ratio], 0 under [cb_person_default_on_file], a value
    equal to 1 under the indicator labels of RENT, EDUCATION and B, and 0
    under every other label that is not one of the nine numeric ones.
    The label [predict] returns decides the line drawn, and a probability
    read off a probabilistic classifier is between 0 and 1. *)
Theorem scenario_1_end_to_end
        (dt : dummy_dtype) (m : Model) (cols : list string) :
  feature_names_in_ m = Some cols ->
  cb_person_default_on_file_bin Examples.scenario_1 = 0
  /\ debt_to_income_ratio Examples.scenario_1 = Returned 0.2%float
  /\ exists X,
       alignToSchema (input_df dt Examples.scenario_1 0.2%float) cols = Returned X
       /\ columns X = cols
       /\ In (called_predict X) (trace (on_predict dt m Examples.scenario_1))
       /\ (In "debt_to_income_ratio"%string cols ->
           cell_at X "debt_to_income_ratio" = Some (Float 0.2%float))
       /\ (In "cb_person_default_on_file"%string cols ->
           cell_at X "cb_person_default_on_file" = Some (Int 0))
       /\ (forall c,
             In c ["person_home_ownership_RENT"; "loan_intent_EDUCATION";
                   "loan_grade_B"]%string ->
             In c cols ->
             exists v, cell_at X c = Some v /\ eq_int v 1 = true)
       /\ (forall c,
             In c cols ->
             ~ In c numeric_columns ->
             ~ In c ["person_home_ownership_RENT"; "loan_intent_EDUCATION";
                     "loan_grade_B"]%string ->
             cell_at X c = Some (Int 0))
       /\ (forall labels l,
             predict m X = Returned labels ->
             item labels 0 = Returned l ->
             (predict_proba m = None ->
              on_predict dt m Examples.scenario_1
              = ([called_predict X; decision l], Returned tt))
             /\ (forall proba_of rows row p,
                   predict_proba m = Some proba_of ->
                   proba_of X = Returned rows ->
                   item rows 0 = Returned row ->
                   item row 1 = Returned p ->
                   on_predict dt m Examples.scenario_1
                   = ([called_predict X; called_predict_proba X; decision l;
                       info (probability_line (proba_arith m) p)], Returned tt)
                   /\ (probabilistic m -> is_probability p = true))).
Proof.
  intros Hs.
  assert (Hr : debt_to_income_ratio Examples.scenario_1 = Returned 0.2%float)
    by (vm_compute; reflexivity).
  split; [reflexivity|]. split; [exact Hr|].
  exists (reindexed (input_df dt Examples.scenario_1 0.2%float) cols).
  split; [apply alignToSchema_input_df|].
  split; [apply columns_reindexed|].
  split; [now apply on_predict_calls_predict|].
  split.
  { intros Hc. rewrite cell_at_reindexed by assumption.
    apply f_equal. vm_compute. reflexivity. }
  split.
  { intros Hc. rewrite cell_at_reindexed by assumption.
    apply f_equal. vm_compute. reflexivity. }
  split.
  { intros c Hc Hin. exists (indicator dt).
    rewrite cell_at_reindexed by assumption.
    split; [|destruct dt; reflexivity].
    apply f_equal.
    destruct Hc as [<-|[<-|[<-|[]]]]; vm_compute; reflexivity. }
  split.
  { intros c Hin Hnum Hind. rewrite cell_at_reindexed by assumption.
    apply f_equal. unfold aligned_value.
    rewrite cell_at_absent; [reflexivity|].
    apply contains_false_not_In. rewrite columns_input_df.
    rewrite in_app_iff. intros [H|H]; [exact (Hnum H) | exact (Hind H)]. }
  intros labels l Hl Hi. split.
  - intros Hp.
    exact (on_predict_without_proba dt m _ _ cols labels l Hr Hs Hl Hi Hp).
  - intros proba_of rows row p Hp Hrows Hrow Hpp. split.
    + exact (on_predict_with_proba dt m _ _ cols labels l proba_of rows row p
               Hr Hs Hl Hi Hp Hrows Hrow Hpp).
    + intros Hm.
      exact (probabilistic_entry m _ proba_of rows row p Hm Hp Hrows Hrow Hpp).
Qed.

Lemma scenario_1_end_to_end_witness :
  exists X,
    alignToSchema (input_df dummy_bool Examples.scenario_1 0.2%float)
                  Examples.schema = Returned X
    /\ columns X = Examples.schema
    /\ In (called_predict X)
          (trace (on_predict dummy_bool Examples.classifier Examples.scenario_1))
    /\ cell_at X "debt_to_income_ratio" = Some (Float 0.2%float)
    /\ cell_at X "cb_person_default_on_file" = Some (Int 0)
    /\ cell_at X "loan_grade_C" = Some (Int 0).
Proof.
  destruct (scenario_1_end_to_end dummy_bool Examples.classifier
                                  Examples.schema eq_refl)
    as [_ [_ [X [Ha [Hc [Hin [Hratio [Hflag [_ [Hother _]]]]]]]]]].
  exists X.
  assert (H1 : In "debt_to_income_ratio"%string Examples.schema)
    by (apply In_eqb; vm_compute; reflexivity).
  assert (H2 : In "cb_person_default_on_file"%string Examples.schema)
    by (apply In_eqb; vm_compute; reflexivity).
  assert (H3 : In "loan_grade_C"%string Examples.schema)
    by (apply In_eqb; vm_compute; reflexivity).
  assert (H4 : ~ In "loan_grade_C"%string numeric_columns)
    by (apply not_In_eqb; vm_compute; reflexivity).
  assert (H5 : ~ In "loan_grade_C"%string
                    ["person_home_ownership_RENT"; "loan_intent_EDUCATION";
                     "loan_grade_B"]%string)
    by (apply not_In_eqb; vm_compute; reflexivity).
  exact (conj Ha (conj Hc (conj Hin (conj (Hratio H1) (conj (Hflag H2)
           (Hother _ H3 H4 H5)))))).
Defined.

(* ================================================================== *)
(** * Further properties of the script *)
(* ================================================================== *)

Section FurtherLemmas.

Lemma form_events_not_from_handler (env : Env) (ev : event) :
  In ev (form_events env) -> from_handler ev = false.
Proof.
  unfold form_events, page_header, collector, trace, bind, emit, ret.
  cbn [fst snd app]. intros H.
  repeat (destruct H as [<-|H]; [reflexivity|]). destruct H.
Qed.

Lemma warnings_not_from_handler (i : Inputs) (ev : event) :
  In ev (trace (advisory_warnings i)) -> from_handler ev = false.
Proof.
  intros H. apply advisory_warnings_among_five in H. unfold five_warnings in H.
  repeat (destruct H as [<-|H]; [reflexivity|]). destruct H.
Qed.

Lemma calls_nil_of_not_from_handler (t : list event) :
  (forall ev, In ev t -> from_handler ev = false) -> calls t = [].
Proof.
  induction t as [|ev t IH]; intros H; [reflexivity|].
  unfold calls in *. simpl.
  assert (Hev : from_handler ev = false) by (apply H; simpl; auto).
  destruct ev; try discriminate Hev; simpl; apply IH;
    intros ev' Hin; apply H; simpl; auto.
Qed.

End FurtherLemmas.

(** X1.  A run in which the Predict button was not pressed draws the form,
    the warnings and the button and ends normally: it does not call the
    classifier and draws no decision, probability or error line. *)
Theorem idle_run_leaves_the_classifier_alone (env : Env) (m : Model) :
  path_exists env (MODEL_PATH env) = true ->
  joblib_load env (MODEL_PATH env) = Returned m ->
  predict_pressed env = false ->
  script env
  = (form_events env ++ trace (advisory_warnings (inputs env))
     ++ [button "Predict"], Returned tt)
  /\ calls (trace (script env)) = []
  /\ (forall ev, In ev (trace (script env)) -> from_handler ev = false).
Proof.
  intros Hp Hl Hb.
  assert (E : script env
              = (form_events env ++ trace (advisory_warnings (inputs env))
                 ++ [button "Predict"], Returned tt)).
  { rewrite (script_loaded env m Hp Hl), Hb. reflexivity. }
  assert (Hall : forall ev, In ev (trace (script env)) -> from_handler ev = false).
  { intros ev. rewrite E. unfold trace at 1. cbn [fst].
    rewrite !in_app_iff. intros [H|[H|[<-|[]]]].
    - now apply form_events_not_from_handler in H.
    - now apply warnings_not_from_handler in H.
    - reflexivity. }
  split; [exact E|]. split; [|exact Hall].
  now apply calls_nil_of_not_from_handler.
Qed.

Lemma idle_run_leaves_the_classifier_alone_witness :
  calls (trace (script (Examples.deployed Examples.classifier
                                          Examples.no_income false))) = [].
Proof.
  pose (env := Examples.deployed Examples.classifier Examples.no_income false).
  assert (Hpath : path_exists env (MODEL_PATH env) = true)
    by (vm_compute; reflexivity).
  exact (proj1 (proj2 (idle_run_leaves_the_classifier_alone
                         env Examples.classifier Hpath eq_refl eq_refl))).
Defined.

(** X2.  For values the widgets can hand over, the only warning that can
    appear is the one about the age, and it appears exactly for the ages 18
    and 19, which the age widget lets through and line 46 finds too low;
    the checks of income, employment length, loan amount and interest
    rate can never fail. *)
Theorem only_the_age_warning_is_reachable (i : Inputs) :
  collectable i = true ->
  (forall ev, In ev (trace (advisory_warnings i)) -> ev = warning age_warning)
  /\ (In (warning age_warning) (trace (advisory_warnings i))
      <-> person_age i = 18 \/ person_age i = 19).
Proof.
  unfold collectable. rewrite !andb_true_iff.
  intros [[[[[[[[[[Hage Hinc] Hemp] _] _] _] _] _] Hamt] Hrate] _].
  unfold int_admits in Hage, Hinc, Hemp, Hamt. simpl in Hage, Hinc, Hemp, Hamt.
  unfold float_admits in Hrate. simpl in Hrate.
  rewrite andb_true_iff in Hage, Hemp. rewrite andb_true_r in Hinc, Hamt.
  destruct Hage as [Hage1 Hage2]. destruct Hemp as [Hemp1 Hemp2].
  apply Z.leb_le in Hage1, Hage2, Hemp1, Hemp2, Hinc, Hamt.
  assert (Ei : income_in_range i = true).
  { unfold income_in_range. rewrite Z.geb_leb. now apply Z.leb_le. }
  assert (Ee : emp_length_in_range i = true).
  { unfold emp_length_in_range. apply andb_true_iff.
    split; now apply Z.leb_le. }
  assert (Ea : loan_amnt_in_range i = true).
  { unfold loan_amnt_in_range. rewrite Z.geb_leb. now apply Z.leb_le. }
  assert (Er : int_rate_in_range i = true).
  { unfold int_rate_in_range. rewrite float_of_int_5, float_of_int_25.
    exact Hrate. }
  split.
  - intros ev Hev. apply in_advisory_warnings in Hev.
    rewrite Ei, Ee, Ea, Er in Hev.
    destruct Hev as [[_ <-]|[[H _]|[[H _]|[[H _]|[H _]]]]];
      [reflexivity | discriminate H ..].
  - rewrite age_warning_shown. unfold age_in_range.
    rewrite andb_false_iff, !Z.leb_gt. lia.
Qed.

Lemma only_the_age_warning_is_reachable_witness :
  In (warning age_warning) (trace (advisory_warnings Further.youngest)).
Proof.
  assert (Hc : collectable Further.youngest = true) by (vm_compute; reflexivity).
  apply (proj2 (only_the_age_warning_is_reachable Further.youngest Hc)).
  left. reflexivity.
Defined.

Section FurtherInvocation.

Variables (m : Model) (X : DataFrame).

Lemma item_Returned {A} (a : list A) (k : nat) (x : A) :
  item a k = Returned x -> nth_error a k = Some x.
Proof.
  unfold item. destruct (nth_error a k); [|discriminate].
  intros H. now injection H as <-.
Qed.

Lemma item_IndexError {A} (a : list A) (k : nat) (e : exn) :
  item a k = Raised e -> exn_class_of e = IndexError.
Proof.
  unfold item. destruct (nth_error a k); [discriminate|].
  intros H. injection H as <-. reflexivity.
Qed.

(** Lines 109-112 when the classifier has [predict_proba]: one call, and
    either an exception (the classifier's own, or the [IndexError] of a
    missing row or column) or entry 1 of row 0. *)
Lemma predictProbability_cases proba_of :
  predict_proba m = Some proba_of ->
  (exists e,
     predictProbability m X = ([called_predict_proba X], Raised e)
     /\ (proba_of X = Raised e \/ exn_class_of e = IndexError))
  \/ (exists rows row p,
        proba_of X = Returned rows
        /\ item rows 0 = Returned row
        /\ item row 1 = Returned p
        /\ predictProbability m X
           = ([called_predict_proba X], Returned (Some p))).
Proof.
  intros Hp. unfold predictProbability. rewrite Hp, bind_emit.
  destruct (proba_of X) as [rows|e] eqn:Hrows.
  2:{ left. exists e. rewrite bind_Raised. split; [reflexivity | now left]. }
  rewrite bind_Returned.
  destruct (item rows 0) as [row|e] eqn:Hrow.
  2:{ left. exists e. rewrite bind_Raised.
      split; [reflexivity | right; now apply item_IndexError in Hrow]. }
  rewrite bind_Returned.
  destruct (item row 1) as [p|e] eqn:Hpp.
  2:{ left. exists e. rewrite bind_Raised.
      split; [reflexivity | right; now apply item_IndexError in Hpp]. }
  right. exists rows, row, p. rewrite bind_Returned.
  repeat split; assumption || reflexivity.
Qed.

Lemma predict_and_show_case : invocation_case m X (predict_and_show m X).
Proof.
  unfold predict_and_show. rewrite bind_emit.
  destruct (predict m X) as [labels|e] eqn:Hl.
  { rewrite bind_Returned.
    destruct (item labels 0) as [l|e] eqn:Hi.
    - rewrite bind_Returned.
      destruct (predict_proba m) as [proba_of|] eqn:Hp.
      + destruct (predictProbability_cases proba_of Hp)
          as [[e [E _]]|[rows [row [p [_ [_ [_ E]]]]]]]; rewrite E.
        * apply case_proba_failed with labels l; try assumption; congruence.
        * rewrite bind_pair, show_result_eq.
          apply case_proba_shown with labels; try assumption; congruence.
      + rewrite (predictProbability_absent m X Hp).
        unfold bind, ret. cbn [fst snd app trace result].
        rewrite show_result_eq. now apply case_no_proba with labels.
    - rewrite bind_Raised. now apply case_no_label with labels. }
  rewrite bind_Raised. now apply case_predict_raised.
Qed.

Lemma is_element_decision (l : Z) : is_element (decision l) = true.
Proof. unfold decision. now destruct (l =? 1). Qed.

End FurtherInvocation.

Section FurtherHandler.

Variables (dt : dummy_dtype) (m : Model) (i : Inputs).

(** The body of the [try], by cases: it fails before the classifier is
    reached, or it is lines 106-121 on the aligned frame. *)
Lemma predict_body_cases :
  (exists e, predict_body dt m i = ([], Raised e)
             /\ isinstance_Exception e = true
             /\ (exn_class_of e = OverflowError
                 \/ (exn_class_of e = AttributeError
                     /\ feature_names_in_ m = None)))
  \/ (exists ratio cols X,
        debt_to_income_ratio i = Returned ratio
        /\ feature_names_in_ m = Some cols
        /\ alignToSchema (input_df dt i ratio) cols = Returned X
        /\ predict_body dt m i = predict_and_show m X).
Proof.
  destruct (debt_to_income_ratio i) as [ratio|e] eqn:Hr.
  2:{ left. exists e. rewrite (predict_body_overflow dt m i e Hr).
      unfold debt_to_income_ratio in Hr.
      destruct (truediv_nonzero (loan_amnt i) (Py.max (person_income i) 1))
        as [[q Hq]|[e2 [He2 Hc]]]; [rewrite max_eq; lia | congruence |].
      rewrite Hr in He2. injection He2 as <-.
      unfold isinstance_Exception. rewrite Hc. auto. }
  destruct (feature_names_in_ m) as [cols|] eqn:Hs.
  2:{ left. exists (feature_names_in_error m).
      rewrite (predict_body_without_schema dt m i ratio Hr Hs).
      destruct (feature_names_in_error_class m) as [Hclass Hinst].
      split; [reflexivity|]. split; [exact Hinst|]. right. now split. }
  right. exists ratio, cols, (reindexed (input_df dt i ratio) cols).
  split; [reflexivity|]. split; [reflexivity|].
  split; [apply alignToSchema_input_df|].
  now apply predict_body_aligned.
Qed.

End FurtherHandler.

Section FurtherOutcomes.

Variables (dt : dummy_dtype) (m : Model) (i : Inputs).

Lemma on_predict_of_body (t : list event) (r : outcome unit) :
  predict_body dt m i = (t, r) ->
  on_predict dt m i
  = match r with
    | Returned _ => (t, r)
    | Raised e =>
        if isinstance_Exception e
        then (t ++ [error (prediction_error e)], Returned tt)
        else (t, r)
    end.
Proof. intros H. rewrite on_predict_eq, H. reflexivity. Qed.

Lemma elements_decision (l : Z) (rest : list event) :
  elements (decision l :: rest) = decision l :: elements rest.
Proof. unfold elements. simpl. now rewrite is_element_decision. Qed.

Lemma calls_decision (l : Z) (rest : list event) :
  calls (decision l :: rest) = calls rest.
Proof. unfold calls. simpl. now rewrite is_element_decision. Qed.

Lemma elements_call (X : DataFrame) (rest : list event) :
  elements (called_predict X :: rest) = elements rest
  /\ elements (called_predict_proba X :: rest) = elements rest.
Proof. split; reflexivity. Qed.

Lemma calls_call (X : DataFrame) (rest : list event) :
  calls (called_predict X :: rest) = called_predict X :: calls rest
  /\ calls (called_predict_proba X :: rest)
     = called_predict_proba X :: calls rest.
Proof. split; reflexivity. Qed.

Lemma elements_info (text : string) (rest : list event) :
  elements (info text :: rest) = info text :: elements rest.
Proof. reflexivity. Qed.

Lemma elements_error (text : string) (rest : list event) :
  elements (error text :: rest) = error text :: elements rest.
Proof. reflexivity. Qed.

End FurtherOutcomes.

Ltac page :=
  repeat first
    [ rewrite (proj1 (elements_call _ _))
    | rewrite (proj2 (elements_call _ _))
    | rewrite (proj1 (calls_call _ _))
    | rewrite (proj2 (calls_call _ _))
    | rewrite elements_decision
    | rewrite calls_decision
    | rewrite elements_info
    | rewrite elements_error ].


(** X3.  Whatever the classifier does, the handler of the Predict button
    leaves one of four pages: the decision line alone; the decision line
    followed by the probability line; the single line "Error during
    prediction: ..." for a caught exception; or nothing, when an exception
    outside [Exception] passes through.  A decision line and the
    handler's error line never appear together. *)
Theorem handler_draws_one_outcome (dt : dummy_dtype) (m : Model) (i : Inputs) :
  (exists l,
     elements (trace (on_predict dt m i)) = [decision l]
     /\ result (on_predict dt m i) = Returned tt)
  \/ (exists l p,
        elements (trace (on_predict dt m i))
        = [decision l; info (probability_line (proba_arith m) p)]
        /\ result (on_predict dt m i) = Returned tt)
  \/ (exists e,
        isinstance_Exception e = true
        /\ elements (trace (on_predict dt m i)) = [error (prediction_error e)]
        /\ result (on_predict dt m i) = Returned tt)
  \/ (exists e,
        isinstance_Exception e = false
        /\ elements (trace (on_predict dt m i)) = []
        /\ result (on_predict dt m i) = Raised e).
Proof.
  destruct (predict_body_cases dt m i)
    as [[e [Hb [Hinst _]]]|[ratio [cols [X [_ [_ [_ Hb]]]]]]].
  - right. right. left. exists e.
    rewrite (on_predict_of_body dt m i _ _ Hb), Hinst. auto.
  - pose proof (predict_and_show_shape m X) as Hs. rewrite <- Hb in Hs.
    remember (predict_body dt m i) as body eqn:Eb. symmetry in Eb.
    destruct Hs as [e|l|e|l p]; rewrite (on_predict_of_body dt m i _ _ Eb).
    + destruct (isinstance_Exception e) eqn:Hinst.
      * right. right. left. exists e. auto.
      * right. right. right. exists e. auto.
    + left. exists l. unfold trace, result. cbn [fst snd].
      split; [|reflexivity].
      now page.
    + destruct (isinstance_Exception e) eqn:Hinst.
      * right. right. left. exists e. auto.
      * right. right. right. exists e. auto.
    + right. left. exists l, p. unfold trace, result. cbn [fst snd].
      split; [|reflexivity].
      now page.
Qed.

Section FurtherAligned.

Variables (dt : dummy_dtype) (m : Model) (i : Inputs).
Variables (ratio : float) (cols : list string) (X : DataFrame).
Hypothesis Hratio : debt_to_income_ratio i = Returned ratio.
Hypothesis Hschema : feature_names_in_ m = Some cols.
Hypothesis Haligned : alignToSchema (input_df dt i ratio) cols = Returned X.

Lemma predict_body_is_invocation : predict_body dt m i = predict_and_show m X.
Proof.
  rewrite (predict_body_aligned dt m i ratio cols Hratio Hschema).
  rewrite alignToSchema_input_df in Haligned. now injection Haligned as <-.
Qed.

Lemma on_predict_case :
  exists t r,
    invocation_case m X (t, r)
    /\ predict_body dt m i = (t, r)
    /\ on_predict dt m i
       = match r with
         | Returned _ => (t, r)
         | Raised e =>
             if isinstance_Exception e
             then (t ++ [error (prediction_error e)], Returned tt)
             else (t, r)
         end.
Proof.
  pose proof (predict_and_show_case m X) as Hc.
  rewrite <- predict_body_is_invocation in Hc.
  destruct (predict_body dt m i) as [t r] eqn:Eb.
  exists t, r. split; [exact Hc|]. split; [reflexivity|].
  now apply on_predict_of_body.
Qed.

End FurtherAligned.

(** X4.  The probability is computed before anything is drawn.  So when
    [predict] has returned a label and the probability step then fails with
    an [Exception] (raised by [predict_proba], or the [IndexError] of a
    missing row 0 or column 1), the page shows the error line only, not the
    decision; a first row shorter than two entries, as a classifier fitted
    on one class returns, fails that way. *)
Theorem failed_probability_hides_the_decision
        (dt : dummy_dtype) (m : Model) (i : Inputs) (ratio : float)
        (cols : list string) (X : DataFrame) (labels : list Z) (l : Z) :
  debt_to_income_ratio i = Returned ratio ->
  feature_names_in_ m = Some cols ->
  alignToSchema (input_df dt i ratio) cols = Returned X ->
  predict m X = Returned labels ->
  item labels 0 = Returned l ->
  (forall e,
     result (predictProbability m X) = Raised e ->
     isinstance_Exception e = true ->
     on_predict dt m i
     = ([called_predict X; called_predict_proba X;
         error (prediction_error e)], Returned tt))
  /\ (forall proba_of rows,
        predict_proba m = Some proba_of ->
        proba_of X = Returned rows ->
        (forall row, nth_error rows 0 = Some row -> (List.length row < 2)%nat) ->
        exists e,
          result (predictProbability m X) = Raised e
          /\ exn_class_of e = IndexError).
Proof.
  intros Hr Hs Ha Hl Hi. split.
  - intros e He Hinst.
    destruct (on_predict_case dt m i ratio cols X Hr Hs Ha)
      as [t [r [Hc [_ E]]]].
    rewrite E. clear E.
    inversion Hc as [e1 H1|labels1 e1 H1 H2|labels1 l1 H1 H2 H3
                     |labels1 l1 e1 H1 H2 H3 H4|labels1 l1 p1 H1 H2 H3 H4];
      subst; try congruence.
    + rewrite (predictProbability_absent m X H3) in He. discriminate He.
    + rewrite H4 in He. unfold result in He. cbn [snd] in He.
      injection He as ->. now rewrite Hinst.
    + rewrite H4 in He. discriminate He.
  - intros proba_of rows Hp Hrows Hshort.
    destruct (predictProbability_cases m X proba_of Hp)
      as [[e [E [Hc|Hc]]]|[rows' [row [p [Hrows' [Hrow [Hpp _]]]]]]].
    + congruence.
    + exists e. rewrite E. split; [reflexivity | exact Hc].
    + exfalso. rewrite Hrows in Hrows'. injection Hrows' as <-.
      apply item_Returned in Hrow, Hpp. specialize (Hshort row Hrow).
      assert (1 < List.length row)%nat by (apply nth_error_Some; congruence).
      lia.
Qed.

Lemma failed_probability_hides_the_decision_witness :
  let X := reindexed (input_df dummy_bool Examples.scenario_1 0.2%float)
                     Examples.schema in
  let e := mk_exn IndexError "index 1 is out of bounds for axis 0 with size 1" in
  on_predict dummy_bool Further.classifier_single_class Examples.scenario_1
  = ([called_predict X; called_predict_proba X; error (prediction_error e)],
     Returned tt)
  /\ exists e',
       result (predictProbability Further.classifier_single_class X) = Raised e'
       /\ exn_class_of e' = IndexError.
Proof.
  intros X e.
  assert (Hr : debt_to_income_ratio Examples.scenario_1 = Returned 0.2%float)
    by (vm_compute; reflexivity).
  assert (Ha : alignToSchema (input_df dummy_bool Examples.scenario_1 0.2%float)
                             Examples.schema = Returned X)
    by apply alignToSchema_input_df.
  assert (He : result (predictProbability Further.classifier_single_class X)
               = Raised e)
    by (vm_compute; reflexivity).
  pose (T := failed_probability_hides_the_decision
               dummy_bool Further.classifier_single_class Examples.scenario_1
               0.2%float Examples.schema X [0] 0 Hr eq_refl Ha eq_refl eq_refl).
  split.
  - exact (proj1 T e He eq_refl).
  - apply (proj2 T _ [[1%float]] eq_refl eq_refl).
    intros row Hrow. injection Hrow as <-. simpl. lia.
Defined.

(** X5.  The handler calls the classifier at most twice and in a fixed
    order: either not at all (no ratio or no schema), or [predict] once on
    the aligned frame, or [predict] and then [predict_proba], both once and
    on that same frame; [predict_proba] is called only after [predict] has
    returned an array with a first label. *)
Theorem classifier_is_called_in_order (dt : dummy_dtype) (m : Model) (i : Inputs) :
  (calls (trace (on_predict dt m i)) = []
   /\ (feature_names_in_ m = None
       \/ exists e, debt_to_income_ratio i = Raised e))
  \/ exists ratio cols X,
       debt_to_income_ratio i = Returned ratio
       /\ feature_names_in_ m = Some cols
       /\ alignToSchema (input_df dt i ratio) cols = Returned X
       /\ (calls (trace (on_predict dt m i)) = [called_predict X]
           \/ (calls (trace (on_predict dt m i))
               = [called_predict X; called_predict_proba X]
               /\ predict_proba m <> None
               /\ exists labels l,
                    predict m X = Returned labels
                    /\ item labels 0 = Returned l)).
Proof.
  destruct (debt_to_income_ratio i) as [ratio|e] eqn:Hr.
  2:{ left. rewrite (on_predict_of_body dt m i [] (Raised e)
                       (predict_body_overflow dt m i e Hr)).
      split; [now destruct (isinstance_Exception e) | right; now exists e]. }
  destruct (feature_names_in_ m) as [cols|] eqn:Hs.
  2:{ left. rewrite (on_predict_of_body dt m i [] _
                       (predict_body_without_schema dt m i ratio Hr Hs)).
      split; [now destruct (isinstance_Exception _) | now left]. }
  right. exists ratio, cols, (reindexed (input_df dt i ratio) cols).
  split; [reflexivity|]. split; [reflexivity|].
  split; [apply alignToSchema_input_df|].
  destruct (on_predict_case dt m i ratio cols _ Hr Hs
              (alignToSchema_input_df dt i ratio cols))
    as [t [r [Hc [_ E]]]].
  rewrite E. clear E.
  inversion Hc as [e1 H1|labels1 e1 H1 H2|labels1 l1 H1 H2 H3
                   |labels1 l1 e1 H1 H2 H3 H4|labels1 l1 p1 H1 H2 H3 H4];
    subst.
  - left. now destruct (isinstance_Exception e1).
  - left. now destruct (isinstance_Exception e1).
  - left. unfold trace. cbn [fst]. now page.
  - right. split; [now destruct (isinstance_Exception e1)|]. eauto.
  - right. split; [unfold trace; cbn [fst]; now page|]. eauto.
Qed.

(** X6.  When [predict] returns an empty array, line 106 fails on its
    [[0]]: the handler shows the error line of an [IndexError], draws no
    decision and does not call [predict_proba]. *)
Theorem empty_prediction_is_an_error
        (dt : dummy_dtype) (m : Model) (i : Inputs) (ratio : float)
        (cols : list string) (X : DataFrame) :
  debt_to_income_ratio i = Returned ratio ->
  feature_names_in_ m = Some cols ->
  alignToSchema (input_df dt i ratio) cols = Returned X ->
  predict m X = Returned [] ->
  exists e,
    item (@nil Z) 0 = Raised e
    /\ exn_class_of e = IndexError
    /\ on_predict dt m i
       = ([called_predict X; error (prediction_error e)], Returned tt).
Proof.
  intros Hr Hs Ha Hl.
  destruct (item (@nil Z) 0) as [l|e] eqn:Hi; [discriminate Hi|].
  exists e. split; [reflexivity|].
  split; [now apply item_IndexError in Hi|].
  assert (Hb : predict_body dt m i = ([called_predict X], Raised e)).
  { rewrite (predict_body_is_invocation dt m i ratio cols X Hr Hs Ha).
    unfold predict_and_show.
    now rewrite bind_emit, Hl, bind_Returned, Hi, bind_Raised. }
  rewrite (on_predict_of_body dt m i _ _ Hb).
  now rewrite (item_raises _ _ _ Hi).
Qed.

Lemma empty_prediction_is_an_error_witness :
  exists e,
    exn_class_of e = IndexError
    /\ on_predict dummy_bool Further.classifier_silent Examples.scenario_1
       = ([called_predict
             (reindexed (input_df dummy_bool Examples.scenario_1 0.2%float)
                        Examples.schema);
           error (prediction_error e)], Returned tt).
Proof.
  assert (Hr : debt_to_income_ratio Examples.scenario_1 = Returned 0.2%float)
    by (vm_compute; reflexivity).
  destruct (empty_prediction_is_an_error
              dummy_bool Further.classifier_silent Examples.scenario_1
              0.2%float Examples.schema _ Hr eq_refl
              (alignToSchema_input_df dummy_bool Examples.scenario_1
                                      0.2%float Examples.schema)
              eq_refl)
    as [e [_ [Hc E]]].
  exists e. exact (conj Hc E).
Defined.

(** X7.  An exception that ends the body of the [try] has one of five
    origins: the [OverflowError] of line 68, the [AttributeError] of a
    missing [feature_names_in_] at line 97, the [IndexError] of [[0]] or
    [[0][1]] on the classifier's answers, or an exception raised by
    [predict] or by [predict_proba] themselves.  So the script's own steps
    never raise a [KeyError] (line 103) or a [ZeroDivisionError]
    (line 68). *)
Theorem body_fails_in_five_ways
        (dt : dummy_dtype) (m : Model) (i : Inputs) (e : exn) :
  result (predict_body dt m i) = Raised e ->
  (exn_class_of e = OverflowError /\ debt_to_income_ratio i = Raised e)
  \/ (exn_class_of e = AttributeError /\ feature_names_in_ m = None)
  \/ exn_class_of e = IndexError
  \/ (exists X, predict m X = Raised e)
  \/ (exists proba_of X, predict_proba m = Some proba_of /\ proba_of X = Raised e).
Proof.
  intros He.
  destruct (debt_to_income_ratio i) as [ratio|e0] eqn:Hr.
  2:{ rewrite (predict_body_overflow dt m i e0 Hr) in He.
      unfold result in He. cbn [snd] in He. injection He as <-.
      left. split; [|reflexivity].
      unfold debt_to_income_ratio in Hr.
      destruct (truediv_nonzero (loan_amnt i) (Py.max (person_income i) 1))
        as [[q Hq]|[e2 [He2 Hc]]]; [rewrite max_eq; lia | congruence |].
      rewrite Hr in He2. now injection He2 as <-. }
  destruct (feature_names_in_ m) as [cols|] eqn:Hs.
  2:{ rewrite (predict_body_without_schema dt m i ratio Hr Hs) in He.
      unfold result in He. cbn [snd] in He. injection He as <-.
      right. left. split; [apply feature_names_in_error_class | reflexivity]. }
  rewrite (predict_body_aligned dt m i ratio cols Hr Hs) in He.
  pose proof (predict_and_show_case m (reindexed (input_df dt i ratio) cols))
    as Hc.
  destruct (predict_and_show m (reindexed (input_df dt i ratio) cols))
    as [t r]. unfold result in He. cbn [snd] in He. subst r.
  inversion Hc as [e1 H1|labels1 e1 H1 H2|
                   |labels1 l1 e1 H1 H2 H3 H4|]; subst.
  - right. right. right. left. eauto.
  - right. right. left. now apply item_IndexError in H2.
  - destruct (predict_proba m) as [proba_of|] eqn:Hp; [|congruence].
    destruct (predictProbability_cases
                m (reindexed (input_df dt i ratio) cols) proba_of Hp)
      as [[e2 [E Hor]]|[rows [row [p [_ [_ [_ E]]]]]]];
      rewrite E in H4; [|discriminate H4].
    injection H4 as <-. destruct Hor as [Hor|Hor].
    + right. right. right. right. eauto.
    + right. right. now left.
Qed.

Lemma body_fails_in_five_ways_witness :
  let e := feature_names_in_error Examples.classifier_without_schema in
  (exn_class_of e = OverflowError
   /\ debt_to_income_ratio Examples.scenario_1 = Raised e)
  \/ (exn_class_of e = AttributeError
      /\ feature_names_in_ Examples.classifier_without_schema = None)
  \/ exn_class_of e = IndexError
  \/ (exists X, predict Examples.classifier_without_schema X = Raised e)
  \/ (exists proba_of X,
        predict_proba Examples.classifier_without_schema = Some proba_of
        /\ proba_of X = Raised e).
Proof.
  intros e.
  assert (He : result (predict_body dummy_bool Examples.classifier_without_schema
                                    Examples.scenario_1) = Raised e)
    by (vm_compute; reflexivity).
  exact (body_fails_in_five_ways dummy_bool Examples.classifier_without_schema
                                 Examples.scenario_1 e He).
Defined.

(** X8.  A run of the script ends with an exception in three cases only:
    the model file is missing (line 12), [joblib.load] raises (line 14),
    or the button was pressed and a method of the classifier raised an
    exception outside [Exception].  Every other run ends normally. *)
Theorem script_fails_in_three_ways (env : Env) (e : exn) :
  result (script env) = Raised e ->
  (path_exists env (MODEL_PATH env) = false
   /\ e = model_not_found (MODEL_PATH env))
  \/ (path_exists env (MODEL_PATH env) = true
      /\ joblib_load env (MODEL_PATH env) = Raised e)
  \/ (exists m,
        path_exists env (MODEL_PATH env) = true
        /\ joblib_load env (MODEL_PATH env) = Returned m
        /\ predict_pressed env = true
        /\ isinstance_Exception e = false
        /\ ((exists X, predict m X = Raised e)
            \/ (exists proba_of X,
                  predict_proba m = Some proba_of /\ proba_of X = Raised e))).
Proof.
  intros He.
  destruct (path_exists env (MODEL_PATH env)) eqn:Hp.
  2:{ left. split; [reflexivity|]. unfold script in He.
      rewrite (load_model_absent env Hp) in He.
      unfold result in He. cbn in He. now injection He as <-. }
  destruct (joblib_load env (MODEL_PATH env)) as [m|e0] eqn:Hl.
  2:{ right. left. split; [reflexivity|]. unfold script in He.
      rewrite (load_model_present env Hp), Hl in He.
      unfold result in He. cbn in He. now injection He as <-. }
  right. right. exists m.
  rewrite (script_loaded env m Hp Hl) in He. unfold result at 1 in He.
  cbn [snd] in He.
  destruct (predict_pressed env); [|discriminate He].
  rewrite on_predict_eq in He.
  destruct (result (predict_body (dummies env) m (inputs env)))
    as [[]|e1] eqn:Hb; [congruence|].
  destruct (isinstance_Exception e1) eqn:Hinst.
  - unfold result in He. cbn [snd] in He. discriminate He.
  - assert (e1 = e) by congruence. subst e1.
    repeat split; try reflexivity; try assumption.
    destruct (predict_body_raises (dummies env) m (inputs env) e Hb)
      as [H|[H|H]]; [congruence | now left | now right].
Qed.

Lemma script_fails_in_three_ways_witness :
  let env := Examples.deployed Examples.classifier_exiting
                               Examples.scenario_1 true in
  exists m,
    joblib_load env (MODEL_PATH env) = Returned m
    /\ isinstance_Exception (mk_exn SystemExit "1") = false
    /\ ((exists X, predict m X = Raised (mk_exn SystemExit "1"))
        \/ (exists proba_of X,
              predict_proba m = Some proba_of
              /\ proba_of X = Raised (mk_exn SystemExit "1"))).
Proof.
  intros env.
  assert (He : result (script env) = Raised (mk_exn SystemExit "1"))
    by (vm_compute; reflexivity).
  destruct (script_fails_in_three_ways env _ He)
    as [[Hp _]|[[_ Hl]|[m [_ [Hl [_ [Hinst Hor]]]]]]].
  - exfalso. assert (Hpath : path_exists env (MODEL_PATH env) = true)
      by (vm_compute; reflexivity). congruence.
  - discriminate Hl.
  - exists m. exact (conj Hl (conj Hinst Hor)).
Defined.

Section FurtherFrames.

Implicit Types (df : DataFrame) (c k : string) (cols : list string).

Lemma labelled_labelled df k c :
  labelled (labelled df k) c = if (k =? c)%string then labelled df k else [].
Proof.
  unfold labelled. induction df as [|[a v] df IH]; simpl.
  - now destruct (k =? c)%string.
  - destruct (a =? k)%string eqn:Eak; simpl.
    + apply String.eqb_eq in Eak. subst a.
      destruct (k =? c)%string eqn:Ekc; rewrite IH; reflexivity.
    + exact IH.
Qed.

Lemma labelled_fst df k x : In x (labelled df k) -> fst x = k.
Proof.
  unfold labelled. rewrite filter_In. intros [_ H]. now apply String.eqb_eq.
Qed.

(** What selecting the labels [cols] leaves under a label. *)
Lemma cell_at_select df cols c :
  cell_at (flat_map (labelled df) cols) c
  = if existsb (String.eqb c) cols then cell_at df c else None.
Proof.
  induction cols as [|k cols IH]; simpl; [reflexivity|].
  unfold cell_at in *. rewrite labelled_app, labelled_labelled.
  rewrite (String.eqb_sym c k).
  destruct (k =? c)%string eqn:Ekc; simpl.
  - apply String.eqb_eq in Ekc. subst k.
    destruct (labelled df c) eqn:El; simpl; [|reflexivity].
    rewrite IH. now destruct (existsb (String.eqb c) cols).
  - exact IH.
Qed.

Lemma columns_select df cols c :
  In c (columns (flat_map (labelled df) cols))
  <-> In c cols /\ contains df c = true.
Proof.
  unfold columns. rewrite in_map_iff. split.
  - intros [x [Hx Hin]]. apply in_flat_map in Hin.
    destruct Hin as [k [Hk Hin]]. pose proof (labelled_fst _ _ _ Hin) as Hf.
    rewrite Hx in Hf. subst k. split; [exact Hk|].
    apply contains_In. unfold columns. apply in_map_iff. exists x.
    split; [exact Hx|]. unfold labelled in Hin. now apply filter_In in Hin.
  - intros [Hc Hin]. destruct (cell_at_present df c Hin) as [v [_ Hv]].
    exists (c, v). split; [reflexivity|]. apply in_flat_map. exists c.
    split; [exact Hc|]. unfold labelled. apply filter_In.
    split; [exact Hv | apply String.eqb_refl].
Qed.

Lemma getitem_all_present df cols :
  (forall k, In k cols -> contains df k = true) ->
  getitem df cols = Returned (flat_map (labelled df) cols).
Proof.
  intros Hall. unfold getitem.
  assert (Hnone : filter (fun k => negb (contains df k)) cols = []).
  { induction cols as [|c cols IH]; simpl; [reflexivity|].
    rewrite (Hall c) by (simpl; auto). simpl. apply IH.
    intros k Hk. apply Hall. simpl. auto. }
  now rewrite Hnone.
Qed.

End FurtherFrames.

(** X9.  Lines 98-103 never raise, whatever frame and schema they are
    given (duplicate labels included): after the loop every schema label
    is in the frame, so the selection of line 103 finds them all.  The
    result has exactly the schema's labels; under each it holds the value
    the frame had there first, or 0 when the frame had no such column. *)
Theorem alignToSchema_never_raises (df : DataFrame) (cols : list string) :
  exists X,
    alignToSchema df cols = Returned X
    /\ (forall c, In c (columns X) <-> In c cols)
    /\ (forall c, In c cols ->
          cell_at X c = Some (match cell_at df c with
                              | Some v => v
                              | None => Int 0
                              end)).
Proof.
  exists (flat_map (labelled (fold_left ensure_column cols df)) cols).
  split; [|split].
  - unfold alignToSchema. apply getitem_all_present.
    intros k Hk. now apply fill_contains.
  - intros c. rewrite columns_select. split; [tauto|].
    intros Hc. split; [exact Hc | now apply fill_contains].
  - intros c Hc. rewrite cell_at_select, cell_at_fill.
    apply In_eqb in Hc. rewrite Hc. now destruct (cell_at df c).
Qed.

(** X10.  Aligning is idempotent: for a schema without repeated labels,
    aligning the aligned frame of a frame with distinct labels to the same
    schema gives it back unchanged. *)
Theorem alignToSchema_idempotent (df X : DataFrame) (cols : list string) :
  NoDup (columns df) ->
  NoDup cols ->
  alignToSchema df cols = Returned X ->
  alignToSchema X cols = Returned X.
Proof.
  intros Hdf Hcols Ha.
  rewrite (alignToSchema_reindexed df cols Hdf) in Ha. injection Ha as <-.
  rewrite alignToSchema_reindexed by (now rewrite columns_reindexed).
  apply f_equal. unfold reindexed at 1 3. apply map_ext_in.
  intros c Hc. apply f_equal. unfold aligned_value at 1.
  now rewrite cell_at_reindexed.
Qed.

Lemma alignToSchema_idempotent_witness :
  let X := reindexed (input_df dummy_uint8 Examples.no_income 1000%float)
                     Examples.schema in
  alignToSchema X Examples.schema = Returned X.
Proof.
  intros X.
  assert (Hnd : NoDup Examples.schema).
  { unfold Examples.schema.
    repeat (constructor; [apply not_In_eqb; vm_compute; reflexivity|]).
    constructor. }
  exact (alignToSchema_idempotent
           (input_df dummy_uint8 Examples.no_income 1000%float) X
           Examples.schema
           (input_df_NoDup dummy_uint8 Examples.no_income 1000%float)
           Hnd
           (alignToSchema_input_df dummy_uint8 Examples.no_income 1000%float
                                   Examples.schema)).
Defined.

Section FurtherAssembly.

Variables (dt : dummy_dtype) (i : Inputs) (ratio : float).

Lemma eqb_app_prefix (p a b : string) :
  (p ++ a =? p ++ b)%string = (a =? b)%string.
Proof.
  induction p as [|ch p IH]; simpl; [reflexivity|].
  now rewrite Ascii.eqb_refl.
Qed.

Lemma cell_at_app (a b : DataFrame) (c : string) :
  cell_at (a ++ b) c
  = match cell_at a c with Some v => Some v | None => cell_at b c end.
Proof.
  unfold cell_at. rewrite labelled_app. now destruct (labelled a c).
Qed.

(** The assembled frame under a label: the numeric column of that name,
    else the indicator of the selected value whose label it is. *)
Lemma cell_at_input_df (c : string) :
  cell_at (input_df dt i ratio) c
  = match cell_at (numeric_df i ratio) c with
    | Some v => Some v
    | None =>
        if (indicator_label "person_home_ownership" (person_home_ownership i)
            =? c)%string
           || (indicator_label "loan_intent" (loan_intent i) =? c)%string
           || (indicator_label "loan_grade" (loan_grade i) =? c)%string
        then Some (indicator dt) else None
    end.
Proof.
  unfold input_df, concat_columns. rewrite cell_at_app.
  destruct (cell_at (numeric_df i ratio) c); [reflexivity|].
  unfold cell_at, labelled, get_dummies, cat_df, indicator_label.
  cbn [filter flat_map dummy_of fst snd app negb is_str].
  destruct ("person_home_ownership" ++ "_" ++ person_home_ownership i =? c)%string;
    [reflexivity|].
  destruct ("loan_intent" ++ "_" ++ loan_intent i =? c)%string; [reflexivity|].
  now destruct ("loan_grade" ++ "_" ++ loan_grade i =? c)%string.
Qed.

Lemma numeric_df_no_indicator (field v : string) :
  In field ["person_home_ownership"; "loan_intent"; "loan_grade"]%string ->
  cell_at (numeric_df i ratio) (indicator_label field v) = None.
Proof.
  intros H.
  destruct H as [<-|[<-|[<-|[]]]]; reflexivity.
Qed.

End FurtherAssembly.

Section FurtherIndicators.

Variables (dt : dummy_dtype) (i : Inputs) (ratio : float).

Lemma indicator_label_eqb (field a b : string) :
  (indicator_label field a =? indicator_label field b)%string = (a =? b)%string.
Proof. unfold indicator_label. now rewrite !eqb_app_prefix. Qed.

Lemma cell_at_home_indicator (v : string) :
  cell_at (input_df dt i ratio) (indicator_label "person_home_ownership" v)
  = if (v =? person_home_ownership i)%string then Some (indicator dt) else None.
Proof.
  rewrite cell_at_input_df, numeric_df_no_indicator by (simpl; auto).
  rewrite indicator_label_eqb, (String.eqb_sym v).
  now destruct (person_home_ownership i =? v)%string.
Qed.

Lemma cell_at_intent_indicator (v : string) :
  cell_at (input_df dt i ratio) (indicator_label "loan_intent" v)
  = if (v =? loan_intent i)%string then Some (indicator dt) else None.
Proof.
  rewrite cell_at_input_df, numeric_df_no_indicator by (simpl; auto).
  rewrite indicator_label_eqb, (String.eqb_sym v).
  change (indicator_label "person_home_ownership" (person_home_ownership i)
          =? indicator_label "loan_intent" v)%string with false.
  change (indicator_label "loan_grade" (loan_grade i)
          =? indicator_label "loan_intent" v)%string with false.
  now destruct (loan_intent i =? v)%string.
Qed.

Lemma cell_at_grade_indicator (v : string) :
  cell_at (input_df dt i ratio) (indicator_label "loan_grade" v)
  = if (v =? loan_grade i)%string then Some (indicator dt) else None.
Proof.
  rewrite cell_at_input_df, numeric_df_no_indicator by (simpl; auto).
  rewrite indicator_label_eqb, (String.eqb_sym v).
  change (indicator_label "person_home_ownership" (person_home_ownership i)
          =? indicator_label "loan_grade" v)%string with false.
  change (indicator_label "loan_intent" (loan_intent i)
          =? indicator_label "loan_grade" v)%string with false.
  now destruct (loan_grade i =? v)%string.
Qed.

End FurtherIndicators.

(** X11.  The indicator columns are one-hot for every applicant: under the
    label [field_v] of a categorical field, when the schema has that label,
    the aligned frame holds the indicator value (which equals 1) if [v] is
    the selected value of that field, and 0 for every other [v]. *)
Theorem indicators_are_one_hot
        (dt : dummy_dtype) (i : Inputs) (ratio : float)
        (cols : list string) (X : DataFrame) (v : string) :
  alignToSchema (input_df dt i ratio) cols = Returned X ->
  eq_int (indicator dt) 1 = true
  /\ (In (indicator_label "person_home_ownership" v) cols ->
      cell_at X (indicator_label "person_home_ownership" v)
      = Some (if (v =? person_home_ownership i)%string
              then indicator dt else Int 0))
  /\ (In (indicator_label "loan_intent" v) cols ->
      cell_at X (indicator_label "loan_intent" v)
      = Some (if (v =? loan_intent i)%string then indicator dt else Int 0))
  /\ (In (indicator_label "loan_grade" v) cols ->
      cell_at X (indicator_label "loan_grade" v)
      = Some (if (v =? loan_grade i)%string then indicator dt else Int 0)).
Proof.
  intros Ha. rewrite alignToSchema_input_df in Ha. injection Ha as <-.
  split; [now destruct dt|].
  split; [|split]; intros Hin; rewrite cell_at_reindexed by exact Hin;
    apply f_equal; unfold aligned_value.
  - rewrite cell_at_home_indicator.
    now destruct (v =? person_home_ownership i)%string.
  - rewrite cell_at_intent_indicator. now destruct (v =? loan_intent i)%string.
  - rewrite cell_at_grade_indicator. now destruct (v =? loan_grade i)%string.
Qed.

Lemma indicators_are_one_hot_witness :
  let X := reindexed (input_df dummy_bool Examples.no_income 1000%float)
                     Examples.schema in
  cell_at X "person_home_ownership_OWN" = Some (Int 0)
  /\ cell_at X "person_home_ownership_OTHER" = Some (Bool true)
  /\ cell_at X "loan_grade_G" = Some (Bool true).
Proof.
  intros X.
  pose (Ha := alignToSchema_input_df dummy_bool Examples.no_income 1000%float
                                     Examples.schema).
  assert (H1 : In "person_home_ownership_OWN"%string Examples.schema)
    by (apply In_eqb; vm_compute; reflexivity).
  assert (H2 : In "person_home_ownership_OTHER"%string Examples.schema)
    by (apply In_eqb; vm_compute; reflexivity).
  assert (H3 : In "loan_grade_G"%string Examples.schema)
    by (apply In_eqb; vm_compute; reflexivity).
  split; [|split].
  - exact (proj1 (proj2 (indicators_are_one_hot
             dummy_bool Examples.no_income 1000%float Examples.schema X
             "OWN" Ha)) H1).
  - exact (proj1 (proj2 (indicators_are_one_hot
             dummy_bool Examples.no_income 1000%float Examples.schema X
             "OTHER" Ha)) H2).
  - exact (proj2 (proj2 (proj2 (indicators_are_one_hot
             dummy_bool Examples.no_income 1000%float Examples.schema X
             "G" Ha))) H3).
Defined.

(** X12.  Alignment hands the nine numeric features to the classifier as
    they were collected or computed: under each of the nine numeric
    labels the schema lists, the aligned frame holds the widget's value
    (the binarized flag, the ratio of line 68), untouched by the fill
    with 0. *)
Theorem numeric_features_pass_through
        (dt : dummy_dtype) (i : Inputs) (ratio : float)
        (cols : list string) (X : DataFrame) :
  alignToSchema (input_df dt i ratio) cols = Returned X ->
  (In "person_age"%string cols ->
   cell_at X "person_age" = Some (Int (person_age i)))
  /\ (In "person_income"%string cols ->
      cell_at X "person_income" = Some (Int (person_income i)))
  /\ (In "person_emp_length"%string cols ->
      cell_at X "person_emp_length" = Some (Int (person_emp_length i)))
  /\ (In "loan_amnt"%string cols ->
      cell_at X "loan_amnt" = Some (Int (loan_amnt i)))
  /\ (In "loan_int_rate"%string cols ->
      cell_at X "loan_int_rate" = Some (Float (loan_int_rate i)))
  /\ (In "loan_percent_income"%string cols ->
      cell_at X "loan_percent_income" = Some (Float (loan_percent_income i)))
  /\ (In "cb_person_cred_hist_length"%string cols ->
      cell_at X "cb_person_cred_hist_length"
      = Some (Int (cb_person_cred_hist_length i)))
  /\ (In "cb_person_default_on_file"%string cols ->
      cell_at X "cb_person_default_on_file"
      = Some (Int (cb_person_default_on_file_bin i)))
  /\ (In "debt_to_income_ratio"%string cols ->
      cell_at X "debt_to_income_ratio" = Some (Float ratio)).
Proof.
  intros Ha. rewrite alignToSchema_input_df in Ha. injection Ha as <-.
  repeat split; intros Hin; rewrite cell_at_reindexed by exact Hin;
    reflexivity.
Qed.

Lemma numeric_features_pass_through_witness :
  let X := reindexed (input_df dummy_bool Examples.no_income 1000%float)
                     Examples.schema in
  cell_at X "person_income" = Some (Int 0)
  /\ cell_at X "debt_to_income_ratio" = Some (Float 1000%float).
Proof.
  intros X.
  pose (T := numeric_features_pass_through
               dummy_bool Examples.no_income 1000%float Examples.schema X
               (alignToSchema_input_df dummy_bool Examples.no_income
                                       1000%float Examples.schema)).
  assert (H1 : In "person_income"%string Examples.schema)
    by (apply In_eqb; vm_compute; reflexivity).
  assert (H2 : In "debt_to_income_ratio"%string Examples.schema)
    by (apply In_eqb; vm_compute; reflexivity).
  exact (conj (proj1 (proj2 T) H1)
              (proj2 (proj2 (proj2 (proj2 (proj2 (proj2 (proj2 (proj2 T)))))))
                     H2)).
Defined.

Section FurtherInvisible.

Variables (dt : dummy_dtype) (i : Inputs) (ratio : float).

Lemma aligned_value_other_home (v : string) (c : string) :
  c <> indicator_label "person_home_ownership" v ->
  aligned_value (input_df dt (with_home_ownership i v) ratio) c
  = match cell_at (numeric_df i ratio) c with
    | Some x => x
    | None =>
        if (indicator_label "loan_intent" (loan_intent i) =? c)%string
           || (indicator_label "loan_grade" (loan_grade i) =? c)%string
        then indicator dt else Int 0
    end.
Proof.
  intros Hc. unfold aligned_value. rewrite cell_at_input_df.
  change (numeric_df (with_home_ownership i v) ratio) with (numeric_df i ratio).
  change (person_home_ownership (with_home_ownership i v)) with v.
  change (loan_intent (with_home_ownership i v)) with (loan_intent i).
  change (loan_grade (with_home_ownership i v)) with (loan_grade i).
  destruct (cell_at (numeric_df i ratio) c); [reflexivity|].
  assert (E : (indicator_label "person_home_ownership" v =? c)%string = false)
    by (apply String.eqb_neq; congruence).
  rewrite E. simpl.
  now destruct (_ || _).
Qed.

End FurtherInvisible.

(** X13.  A home ownership value whose indicator label the schema does not
    list leaves no trace in what the classifier sees: two applicants who
    differ only in home ownership, both values unlisted, are aligned to
    the same frame, and the handler does the same for both. *)
Theorem unlisted_home_ownership_is_invisible
        (dt : dummy_dtype) (m : Model) (i : Inputs)
        (cols : list string) (v1 v2 : string) :
  feature_names_in_ m = Some cols ->
  ~ In (indicator_label "person_home_ownership" v1) cols ->
  ~ In (indicator_label "person_home_ownership" v2) cols ->
  (forall ratio,
     alignToSchema (input_df dt (with_home_ownership i v1) ratio) cols
     = alignToSchema (input_df dt (with_home_ownership i v2) ratio) cols)
  /\ on_predict dt m (with_home_ownership i v1)
     = on_predict dt m (with_home_ownership i v2).
Proof.
  intros Hs H1 H2.
  assert (Hframes : forall ratio,
            alignToSchema (input_df dt (with_home_ownership i v1) ratio) cols
            = alignToSchema (input_df dt (with_home_ownership i v2) ratio) cols).
  { intros ratio. rewrite !alignToSchema_input_df. apply f_equal.
    unfold reindexed. apply map_ext_in. intros c Hc. apply f_equal.
    rewrite !aligned_value_other_home; [reflexivity | |];
      intros ->; contradiction. }
  split; [exact Hframes|].
  unfold on_predict. f_equal. unfold predict_body.
  change (debt_to_income_ratio (with_home_ownership i v1))
    with (debt_to_income_ratio i).
  change (debt_to_income_ratio (with_home_ownership i v2))
    with (debt_to_income_ratio i).
  destruct (debt_to_income_ratio i) as [ratio|e]; [|reflexivity].
  rewrite !bind_Returned. unfold get_feature_names_in_.
  rewrite Hs, !bind_Returned. now rewrite Hframes.
Qed.

Lemma unlisted_home_ownership_is_invisible_witness :
  on_predict dummy_bool Further.classifier_two_homes
             (with_home_ownership Examples.scenario_1 "MORTGAGE")
  = on_predict dummy_bool Further.classifier_two_homes
               (with_home_ownership Examples.scenario_1 "OTHER").
Proof.
  assert (H1 : ~ In (indicator_label "person_home_ownership" "MORTGAGE")
                    Further.schema_two_homes)
    by (apply not_In_eqb; vm_compute; reflexivity).
  assert (H2 : ~ In (indicator_label "person_home_ownership" "OTHER")
                    Further.schema_two_homes)
    by (apply not_In_eqb; vm_compute; reflexivity).
  exact (proj2 (unlisted_home_ownership_is_invisible
                  dummy_bool Further.classifier_two_homes Examples.scenario_1
                  Further.schema_two_homes "MORTGAGE" "OTHER"
                  eq_refl H1 H2)).
Defined.

(** X14.  For values the widgets can hand over, the guard of line 68 does
    nothing: the income is at least 10000, so [max(person_income, 1)] is
    the income and the ratio is [loan_amnt / person_income]; with a loan
    amount below 2^1023 that division returns a float. *)
Theorem income_guard_is_idle_for_collected_inputs (i : Inputs) :
  collectable i = true ->
  Py.max (person_income i) 1 = person_income i
  /\ debt_to_income_ratio i = truediv (loan_amnt i) (person_income i)
  /\ (loan_amnt i < 2 ^ 1023 -> exists q, debt_to_income_ratio i = Returned q).
Proof.
  unfold collectable. rewrite !andb_true_iff.
  intros [[[[[[[[[[_ Hinc] _] _] _] _] _] _] Hamt] _] _].
  unfold int_admits in Hinc, Hamt. simpl in Hinc, Hamt.
  rewrite andb_true_r in Hinc, Hamt. apply Z.leb_le in Hinc, Hamt.
  assert (E : Py.max (person_income i) 1 = person_income i)
    by (rewrite max_eq; lia).
  split; [exact E|]. unfold debt_to_income_ratio. rewrite E.
  split; [reflexivity|].
  intros Hbig. apply truediv_returns; lia.
Qed.

Lemma income_guard_is_idle_for_collected_inputs_witness :
  debt_to_income_ratio Examples.scenario_1 = truediv 10000 50000
  /\ exists q, debt_to_income_ratio Examples.scenario_1 = Returned q.
Proof.
  assert (Hc : collectable Examples.scenario_1 = true)
    by (vm_compute; reflexivity).
  pose (T := income_guard_is_idle_for_collected_inputs Examples.scenario_1 Hc).
  split; [exact (proj1 (proj2 T))|].
  apply (proj2 (proj2 T)). reflexivity.
Defined.
